(** * Trajectory replay engine: shallow embedding and verified properties

    Source: [src/environments/replay.py] (class [TaskStepExecutor] and the
    table [CSS_ESCAPE_MAP]).

    Layout: Python data (strings, numbers, JSON payloads), the pure
    targeting helpers, the browser interface and the replay monad, the
    handlers and the orchestrator, a scripted browser used for concrete
    runs, and then the lemmas and the theorems. *)

From Stdlib Require Import ZArith List String Ascii Bool Lia.
From Stdlib Require Import Floats.SpecFloat.
Import ListNotations.

Set Implicit Arguments.
Open Scope string_scope.
Open Scope Z_scope.

(* ================================================================== *)
(** * Python exceptions and fallible computations *)
(* ================================================================== *)

(** The subclasses of [Exception] the replay code can meet.  Playwright's
    [TimeoutError] is the only one that [except PlaywrightTimeoutError]
    catches; [except Exception] catches every constructor below. *)
Inductive exn : Type :=
| TimeoutError (msg : string)
| PlaywrightError (msg : string)
| TypeError
| AttributeError
| OverflowError
| ValueError
| Exception (msg : string).

Definition is_timeout (e : exn) : bool :=
  match e with TimeoutError _ => true | _ => false end.

Inductive result (A : Type) : Type :=
| Ok (a : A)
| Raise (e : exn).
Arguments Ok {A} a.
Arguments Raise {A} e.

Definition rbind {A B} (m : result A) (k : A -> result B) : result B :=
  match m with
  | Ok a => k a
  | Raise e => Raise e
  end.

Declare Scope result_scope.
Delimit Scope result_scope with result.
Notation "x <~ m ;; k" := (rbind m (fun x => k))
  (at level 61, m at next level, right associativity) : result_scope.

(* ================================================================== *)
(** * Python strings

    A [str] is modelled by [string]; each [ascii] stands for the code
    point of the same number (code points below 256). *)
(* ================================================================== *)

Module PyStr.

Definition is_empty (s : string) : bool :=
  match s with EmptyString => true | String _ _ => false end.

(** [str.isspace] on one code point below 256: the C0 separators
    9..13 and 28..31, the space, NEL (133) and NBSP (160). *)
Definition isspace (c : ascii) : bool :=
  let n := Z.of_nat (nat_of_ascii c) in
  ((9 <=? n) && (n <=? 13)) || ((28 <=? n) && (n <=? 32))
  || (n =? 133) || (n =? 160).

(** [s.rstrip(c)] for a one-character argument: drop the whole run of
    trailing [c]. *)
Fixpoint rstrip (c : ascii) (s : string) : string :=
  match s with
  | EmptyString => EmptyString
  | String a s' =>
      let r := rstrip c s' in
      if Ascii.eqb a c && is_empty r then EmptyString else String a r
  end.

(** [s.split()]: maximal runs of non-whitespace; [tok] is the token
    being read. *)
Fixpoint split_ws_from (tok : string) (s : string) : list string :=
  match s with
  | EmptyString => if is_empty tok then [] else [tok]
  | String c s' =>
      if isspace c
      then if is_empty tok then split_ws_from "" s'
           else tok :: split_ws_from "" s'
      else split_ws_from (tok ++ String c "") s'
  end.

Definition split_ws (s : string) : list string := split_ws_from "" s.

(** [s.split(sep, n)]: cut at the first [n] occurrences of [sep];
    [cur] is the piece being read. *)
Fixpoint split_max_from (sep : ascii) (cur : string) (n : nat)
         (s : string) : list string :=
  match s with
  | EmptyString => [cur]
  | String c s' =>
      match n with
      | O => [cur ++ s]
      | S n' =>
          if Ascii.eqb c sep then cur :: split_max_from sep "" n' s'
          else split_max_from sep (cur ++ String c "") n s'
      end
  end.

Definition split_max (sep : ascii) (n : nat) (s : string) : list string :=
  split_max_from sep "" n s.

(** [str.lower] on one code point below 256: A..Z and the Latin-1
    capitals 192..222 (without the multiplication sign 215). *)
Definition lower_char (c : ascii) : ascii :=
  let n := nat_of_ascii c in
  let z := Z.of_nat n in
  if ((65 <=? z) && (z <=? 90))
     || ((192 <=? z) && (z <=? 222) && negb (z =? 215))
  then ascii_of_nat (n + 32) else c.

Fixpoint lower (s : string) : string :=
  match s with
  | EmptyString => EmptyString
  | String c s' => String (lower_char c) (lower s')
  end.

Definition endswith (s ext : string) : bool :=
  let n := String.length s in
  let m := String.length ext in
  (m <=? n)%nat && String.eqb (substring (n - m) m s) ext.

Fixpoint join (l : list string) : string :=
  match l with
  | [] => ""
  | s :: l' => s ++ join l'
  end.

End PyStr.

(* ================================================================== *)
(** * Python numbers

    [float] is IEEE binary64, given by the Standard Library's
    specification floats at precision 53 and maximal exponent 1024. *)
(* ================================================================== *)

Module PyNum.

Definition float : Type := spec_float.

Definition prec : Z := 53.
Definition emax : Z := 1024.

Definition fzero : float := S754_zero false.
Definition fadd : float -> float -> float := SFadd prec emax.
Definition fmul : float -> float -> float := SFmul prec emax.
Definition fdiv : float -> float -> float := SFdiv prec emax.

(** A rounded value that left the finite range shows as an infinity;
    Python raises [OverflowError] where an [int] is involved. *)
Definition finite_or_overflow (f : float) : result float :=
  match f with
  | S754_infinity _ => Raise OverflowError
  | _ => Ok f
  end.

(** [float(n)] for an [int]: round to nearest, ties to even. *)
Definition float_of_int (n : Z) : result float :=
  finite_or_overflow (binary_normalize prec emax n 0 false).

Definition ftwo : float :=
  Eval cbv in binary_normalize prec emax 2 0 false.

(** [n / 2] for an [int]: true division, the quotient rounded once. *)
Definition int_truediv_2 (n : Z) : result float :=
  finite_or_overflow (binary_normalize prec emax n (-1) false).

(** Same point: equal, or the two zeros (which Python's [==] and a
    pixel position do not tell apart). *)
Definition same_float (a b : float) : Prop :=
  a = b \/ (exists s s', a = S754_zero s /\ b = S754_zero s').

End PyNum.
Export PyNum.

(* ================================================================== *)
(** * JSON payloads

    [event_data_json] is whatever [json.loads] produced: a dict with
    string keys in the usual case, any JSON value otherwise.  A dict is
    an association list read at its first binding of a key. *)
(* ================================================================== *)

#[warnings="-register-all"] Inductive value : Type :=
| PNone
| PBool (b : bool)
| PInt (n : Z)
| PFloat (f : float)
| PStr (s : string)
| PList (l : list value)
| PDict (d : list (string * value)).

Definition dict : Type := list (string * value).

Fixpoint lookup (k : string) (d : dict) : option value :=
  match d with
  | [] => None
  | (k', v) :: d' => if String.eqb k k' then Some v else lookup k d'
  end.

(** [d.get(k, default)] *)
Definition get_default (d : dict) (k : string) (default : value) : value :=
  match lookup k d with
  | Some v => v
  | None => default
  end.

(** [d.get(k)] *)
Definition get (d : dict) (k : string) : value := get_default d k PNone.

(** [v.get(k) if isinstance(v, dict) else None] *)
Definition get_if_dict (v : value) (k : string) : value :=
  match v with
  | PDict d => get d k
  | _ => PNone
  end.

(** [isinstance(v, (int, float))]; [bool] is a subclass of [int]. *)
Definition is_number (v : value) : bool :=
  match v with
  | PBool _ | PInt _ | PFloat _ => true
  | _ => false
  end.

(** Truth value of [v], as tested by [if v], [not v] and [or]. *)
Definition truthy (v : value) : bool :=
  match v with
  | PNone => false
  | PBool b => b
  | PInt n => negb (n =? 0)
  | PFloat (S754_zero _) => false
  | PFloat _ => true
  | PStr s => negb (PyStr.is_empty s)
  | PList l => match l with [] => false | _ => true end
  | PDict d => match d with [] => false | _ => true end
  end.

(** [a or b] *)
Definition py_or (a b : value) : value := if truthy a then a else b.

(** Components of [urllib.parse.urlparse]'s result. *)
Record ParseResult : Type := mkParseResult {
  scheme : string;
  netloc : string;
  path : string;
  params : string;
  query : string;
  fragment : string
}.

(** Functions of the Python library that the replay code calls and this
    development leaves open: every theorem holds for each of them.
    [py_repr v] is [str(v)] for a value that is not a [str],
    [float_of_str s] is [float(s)], [urlparse] is
    [urllib.parse.urlparse] on a [str]. *)
Class PyLib : Type := {
  py_repr : value -> string;
  float_of_str : string -> result float;
  urlparse : string -> result ParseResult
}.

(* ================================================================== *)
(** * Payload targeting (pure helpers of [TaskStepExecutor]) *)
(* ================================================================== *)

Section Targeting.
Context {lib : PyLib}.

(** [str(v)] *)
Definition py_str (v : value) : string :=
  match v with
  | PStr s => s
  | _ => py_repr v
  end.

(** [float(v)] *)
Definition py_float (v : value) : result float :=
  match v with
  | PBool b => float_of_int (Z.b2z b)
  | PInt n => float_of_int n
  | PFloat f => Ok f
  | PStr s => float_of_str s
  | PNone | PList _ | PDict _ => Raise TypeError
  end.

(** [v / 2] *)
Definition py_truediv_2 (v : value) : result float :=
  match v with
  | PBool b => int_truediv_2 (Z.b2z b)
  | PInt n => int_truediv_2 n
  | PFloat f => Ok (fdiv f ftwo)
  | _ => Raise TypeError
  end.

(** [v + f] for a float [f] and a [v] that passed [is_number]. *)
Definition py_add_float (v : value) (f : float) : result float :=
  match v with
  | PBool b => (x <~ float_of_int (Z.b2z b) ;; Ok (fadd x f))%result
  | PInt n => (x <~ float_of_int n ;; Ok (fadd x f))%result
  | PFloat x => Ok (fadd x f)
  | _ => Raise TypeError
  end.

(** [_is_valid_point] (replay.py:387-393) *)
Definition _is_valid_point (point : value) : bool :=
  match point with
  | PDict d => is_number (get d "x") && is_number (get d "y")
  | _ => false
  end.

(** [float(point["x"]), float(point["y"])] *)
Definition point_floats (point : value) : result (float * float) :=
  (x <~ py_float (get_if_dict point "x") ;;
   y <~ py_float (get_if_dict point "y") ;;
   Ok (x, y))%result.

(** The [for key in ("client", "page", "offset")] loop of
    [_extract_coordinates]: [Some] is its [return], [None] its normal
    end. *)
Fixpoint first_point (coords : dict) (keys : list string)
  : result (option (float * float)) :=
  match keys with
  | [] => Ok None
  | key :: keys' =>
      let point := get coords key in
      if _is_valid_point point
      then (xy <~ point_floats point ;; Ok (Some xy))%result
      else first_point coords keys'
  end.

(** [_extract_coordinates] (replay.py:335-368).  [Ok None] is the
    final [return None]. *)
Definition _extract_coordinates (payload : value)
  : result (option (float * float)) :=
  let coords := get_if_dict payload "coordinates" in
  (from_coords <~
     match coords with
     | PDict c =>
         hit <~ first_point c ["client"; "page"; "offset"] ;;
         match hit with
         | Some xy => Ok (Some xy)
         | None =>
             let relative := get c "relative" in
             let viewport :=
               py_or (get c "viewport") (get_if_dict payload "viewport") in
             if _is_valid_point relative
                && match viewport with
                   | PDict v =>
                       is_number (get v "width") && is_number (get v "height")
                   | _ => false
                   end
             then
               rx <~ py_float (get_if_dict relative "x") ;;
               vw <~ py_float (get_if_dict viewport "width") ;;
               ry <~ py_float (get_if_dict relative "y") ;;
               vh <~ py_float (get_if_dict viewport "height") ;;
               Ok (Some (fmul rx vw, fmul ry vh))
             else Ok None
         end
     | _ => Ok None
     end ;;
   match from_coords with
   | Some xy => Ok (Some xy)
   | None =>
       let x := get_if_dict payload "x" in
       let y := get_if_dict payload "y" in
       if is_number x && is_number y
       then (fx <~ py_float x ;; fy <~ py_float y ;; Ok (Some (fx, fy)))
       else
         match get_if_dict payload "elementRect" with
         | PDict rect =>
             let left := get rect "left" in
             let top := get rect "top" in
             let width := get_default rect "width" (PInt 0) in
             let height := get_default rect "height" (PInt 0) in
             if is_number left && is_number top
             then
               hw <~ py_truediv_2 width ;;
               cx <~ py_add_float left hw ;;
               hh <~ py_truediv_2 height ;;
               cy <~ py_add_float top hh ;;
               Ok (Some (cx, cy))
             else Ok None
         | _ => Ok None
         end
   end)%result.

(** [CSS_ESCAPE_MAP] (replay.py:415-426), keyed by code point:
    10 newline, 13 carriage return, 12 form feed, 9 tab, 32 space,
    34 double quote, 39 single quote, 35 hash, 58 colon.  The backslash
    is code point 92. *)
Definition backslash : string := String (ascii_of_nat 92) "".

Definition CSS_ESCAPE_MAP : list (nat * string) :=
  [ (10%nat, backslash ++ "A ");
    (13%nat, "");
    (12%nat, backslash ++ "C ");
    (9%nat, " ");
    (32%nat, " ");
    (34%nat, backslash ++ String (ascii_of_nat 34) "");
    (39%nat, backslash ++ "'");
    (35%nat, backslash ++ "#");
    (58%nat, backslash ++ ":") ].

Fixpoint map_get (k : nat) (m : list (nat * string)) : option string :=
  match m with
  | [] => None
  | (k', v) :: m' => if Nat.eqb k k' then Some v else map_get k m'
  end.

(** [CSS_ESCAPE_MAP.get(ch, ch)] *)
Definition escape_char (ch : ascii) : string :=
  match map_get (nat_of_ascii ch) CSS_ESCAPE_MAP with
  | Some r => r
  | None => String ch ""
  end.

(** [_css_escape] (replay.py:395-397) *)
Fixpoint _css_escape (v : string) : string :=
  match v with
  | EmptyString => ""
  | String ch v' => escape_char ch ++ _css_escape v'
  end.

(** [''.join('.' + cls for cls in classes)] *)
Fixpoint dotted (classes : list string) : string :=
  match classes with
  | [] => ""
  | cls :: rest => "." ++ cls ++ dotted rest
  end.

(** [_build_selector] (replay.py:370-385).  [tag.lower()] exists only
    on a [str]: a truthy tag of another type raises [AttributeError]. *)
Definition _build_selector (payload : value) : result (option string) :=
  let element_id := get_if_dict payload "id" in
  if truthy element_id
  then Ok (Some ("#" ++ _css_escape (py_str element_id)))
  else
    let class_name := get_if_dict payload "className" in
    let tag := get_if_dict payload "tag" in
    if truthy class_name
    then
      let classes := map _css_escape (PyStr.split_ws (py_str class_name)) in
      match classes with
      | [] => Ok None
      | _ :: _ =>
          (prefix <~
             (if truthy tag
              then match tag with
                   | PStr t => Ok (PyStr.lower t)
                   | _ => Raise AttributeError
                   end
              else Ok "*") ;;
           Ok (Some (prefix ++ dotted classes)))%result
      end
    else Ok None.

(** [_split_event_type] (replay.py:399-406); [None] stands for an
    [event_type] that is [None]. *)
Definition _split_event_type (event_type : option string)
  : string * string * string :=
  let s := match event_type with Some s => s | None => "" end in
  match PyStr.split_max ":" 2 s with
  | [a] => (a, "", "")
  | [a; b] => (a, b, "")
  | a :: b :: c :: _ => (a, b, c)
  | [] => ("", "", "")
  end.

(** [_urls_differ] (replay.py:408-412).  [target] is the payload's
    [url]; [rstrip] exists only on a [str]. *)
Definition _urls_differ (current : string) (target : value) : result bool :=
  if PyStr.is_empty current then Ok true
  else match target with
       | PStr t =>
           Ok (negb (String.eqb (PyStr.rstrip "/" current)
                                (PyStr.rstrip "/" t)))
       | _ => Raise AttributeError
       end.

End Targeting.

(* ================================================================== *)
(** * The browser collaborator

    Every Playwright operation the replay code awaits is a [call]; what
    it does to the browser and whether it raises is the browser's
    business, given by an instance of [Browser]. *)
(* ================================================================== *)

(** [page.locator(sel)] and [loc.first] *)
Inductive locator : Type :=
| Locator (selector : string)
| First (l : locator).

Inductive call : Type :=
| Goto (url : value) (wait_until : string)
| WaitForLoadState (state : string) (timeout : Z)
| EvaluatePushState (url : value)
| EvaluateScrollTo (x y : value)
| MouseMove (x y : float)
| MouseClick (x y : float)
| Click (l : locator) (timeout : Z)
| Fill (l : locator) (v : value) (timeout : Z)
| Press (l : locator) (key : string) (timeout : Z)
| Count (l : locator)
| KeyboardPress (key : value)
| KeyboardType (key : value).

(** What the replay did to the outside, in order. *)
Inductive event : Type :=
| Call (c : call)
| Sleep (ms : Z).

(** [page_url b] is [page.url]; [perform c b] runs one operation: its
    result (the number of matches for [Count], unused otherwise) or the
    exception it raises, and the browser afterwards; [asleep ms b] is
    the browser after [asyncio.sleep] of [ms] milliseconds. *)
Class Browser (B : Type) : Type := {
  page_url : B -> string;
  perform : call -> B -> result Z * B;
  asleep : Z -> B -> B
}.

(** [StepModel] as far as the executor reads it. *)
Record StepModel : Type := mkStep {
  id : Z;
  event_type : option string;
  event_data_json : value
}.

(** How [run] was left: through the end of the loop, or through the
    [return] of its [except] clause. *)
Inductive session : Type :=
| Completed
| StoppedOnError.

(* ================================================================== *)
(** * The replay monad: executor state, browser and exceptions *)
(* ================================================================== *)

Section Replay.
Context {lib : PyLib} {B : Type} {br : Browser B}.

Record state : Type := mkState {
  page : B;
  _initial_navigation_done : bool;
  history : list event
}.

Definition M (A : Type) : Type := state -> result A * state.

Definition ret {A} (a : A) : M A := fun s => (Ok a, s).

Definition raise {A} (e : exn) : M A := fun s => (Raise e, s).

Definition bind {A C} (m : M A) (k : A -> M C) : M C :=
  fun s =>
    match m s with
    | (Ok a, s') => k a s'
    | (Raise e, s') => (Raise e, s')
    end.

(** [try: m  except <catches>: h] *)
Definition try_except {A} (m : M A) (catches : exn -> bool)
           (h : exn -> M A) : M A :=
  fun s =>
    match m s with
    | (Ok a, s') => (Ok a, s')
    | (Raise e, s') => if catches e then h e s' else (Raise e, s')
    end.

Definition any_exception (e : exn) : bool := true.

Definition lift {A} (r : result A) : M A := fun s => (r, s).

Definition await (c : call) : M Z :=
  fun s =>
    let (r, b) := perform c (page s) in
    (r, mkState b (_initial_navigation_done s) (history s ++ [Call c])).

Definition sleep (ms : Z) : M unit :=
  fun s =>
    (Ok tt, mkState (asleep ms (page s)) (_initial_navigation_done s)
                    (history s ++ [Sleep ms])).

Definition read_url : M string := fun s => (Ok (page_url (page s)), s).

Definition read_flag : M bool :=
  fun s => (Ok (_initial_navigation_done s), s).

Definition mark_navigation_done : M unit :=
  fun s => (Ok tt, mkState (page s) true (history s)).

End Replay.

Arguments state B : clear implicits.
Arguments M B A : clear implicits.

Declare Scope replay_scope.
Delimit Scope replay_scope with replay.
Notation "x <- m ;; k" := (bind m (fun x => k))
  (at level 61, m at next level, right associativity) : replay_scope.
Notation "m ;;; k" := (bind m (fun _ => k))
  (at level 61, right associativity) : replay_scope.

(* ================================================================== *)
(** * Handlers and orchestrator ([TaskStepExecutor]) *)
(* ================================================================== *)

Section Executor.
Context {lib : PyLib} {B : Type} {br : Browser B}.
Local Open Scope replay_scope.

Definition about_blank : string := "about:blank".

(** [v == s] for a string literal [s] *)
Definition eq_str (v : value) (s : string) : bool :=
  match v with
  | PStr t => String.eqb t s
  | _ => false
  end.

(** [if selector:] on the result of [_build_selector] *)
Definition usable (selector : option string) : option string :=
  match selector with
  | Some sel => if PyStr.is_empty sel then None else Some sel
  | None => None
  end.

(** [_safe_goto] (replay.py:322-327) *)
Definition _safe_goto (url : value) : M B unit :=
  try_except (await (Goto url "domcontentloaded") ;;; ret tt)
             any_exception (fun _ => ret tt).

(** [_safe_wait_for_load] (replay.py:329-333) *)
Definition _safe_wait_for_load (st : string) : M B unit :=
  try_except (await (WaitForLoadState st 15000) ;;; ret tt)
             any_exception (fun _ => ret tt).

Definition static_extensions : list string :=
  [".html"; ".htm"; ".php"; ".asp"; ".jsp"].

(** [urlparse(target_url)] on the payload's [url]: a value that is not
    a [str] makes the comparison fail or the call raise; both ways
    [_is_spa_route_change] answers [False]. *)
Definition urlparse_value (v : value) : result ParseResult :=
  match v with
  | PStr s => urlparse s
  | _ => Raise AttributeError
  end.

(** The [try] block of [_is_spa_route_change] (replay.py:258-286). *)
Definition spa_decision (current_url : string) (target_url : value)
  : result bool :=
  (current <~ urlparse current_url ;;
   target <~ urlparse_value target_url ;;
   if negb (String.eqb (scheme current) (scheme target))
      || negb (String.eqb (netloc current) (netloc target))
   then Ok false
   else if String.eqb (scheme current) (scheme target)
           && String.eqb (netloc current) (netloc target)
           && String.eqb (path current) (path target)
           && String.eqb (query current) (query target)
   then Ok true
   else
     let target_path := PyStr.lower (path target) in
     if existsb (PyStr.endswith target_path) static_extensions
     then Ok false
     else Ok true)%result.

(** [_is_spa_route_change] (replay.py:245-290) *)
Definition _is_spa_route_change (target_url : value) : M B bool :=
  current_url <- read_url ;;
  if PyStr.is_empty current_url || String.eqb current_url about_blank
  then ret false
  else match spa_decision current_url target_url with
       | Ok b => ret b
       | Raise _ => ret false
       end.

(** [_perform_spa_navigation] (replay.py:292-320) *)
Definition _perform_spa_navigation (url : value) : M B unit :=
  try_except (await (EvaluatePushState url) ;;; sleep 300)
             any_exception (fun _ => _safe_goto url).

(** [_handle_state_step] (replay.py:54-74) *)
Definition _handle_state_step (subject action : string) (payload : value)
  : M B unit :=
  if String.eqb subject "browser" && String.eqb action "navigated"
  then
    let url := get_if_dict payload "url" in
    if negb (truthy url) || eq_str url about_blank
    then ret tt
    else
      done <- read_flag ;;
      needed <- (if negb done then ret true
                 else current <- read_url ;; lift (_urls_differ current url)) ;;
      if needed
      then
        spa <- _is_spa_route_change url ;;
        (if spa then _perform_spa_navigation url else _safe_goto url) ;;;
        mark_navigation_done
      else ret tt
  else if String.eqb subject "page"
  then
    if String.eqb action "domcontentloaded"
       || String.eqb action "domcontentload"
    then _safe_wait_for_load "domcontentloaded"
    else if String.eqb action "loaded" || String.eqb action "load"
    then _safe_wait_for_load "load"
    else ret tt
  else ret tt.

(** [_perform_pointer_click] (replay.py:97-121) *)
Definition _perform_pointer_click (payload : value) : M B unit :=
  coords <- lift (_extract_coordinates payload) ;;
  match coords with
  | None =>
      selector <- lift (_build_selector payload) ;;
      match usable selector with
      | Some sel =>
          try_except (await (Click (Locator sel) 5000) ;;; ret tt)
                     is_timeout (fun e => raise e)
      | None =>
          raise (Exception "No coordinates or selector available for click")
      end
  | Some (x, y) =>
      await (MouseMove x y) ;;;
      sleep 100 ;;;
      await (MouseClick x y) ;;;
      ret tt
  end.

(** [_perform_pointer_move] (replay.py:123-128) *)
Definition _perform_pointer_move (payload : value) : M B unit :=
  coords <- lift (_extract_coordinates payload) ;;
  match coords with
  | None => ret tt
  | Some (x, y) => await (MouseMove x y) ;;; ret tt
  end.

(** [_perform_scroll] (replay.py:130-160).  [payload.get] is called
    without the [isinstance] guard of the other handlers. *)
Definition _perform_scroll (payload : value) : M B unit :=
  match payload with
  | PDict d =>
      let x := get d "x" in
      let y := get d "y" in
      if is_number x && is_number y
      then try_except (await (EvaluateScrollTo x y) ;;; ret tt)
                      any_exception (fun _ => ret tt)
      else ret tt
  | _ => raise AttributeError
  end.

Definition focus : locator := Locator ":focus".

(** [_perform_input] (replay.py:162-195).  The two booleans say whether
    the [return] after a fill was reached. *)
Definition _perform_input (payload : value) : M B unit :=
  let v := get_if_dict payload "value" in
  match v with
  | PNone => ret tt
  | _ =>
      selector <- lift (_build_selector payload) ;;
      filled <-
        match usable selector with
        | Some sel =>
            try_except (await (Fill (Locator sel) v 5000) ;;; ret true)
                       is_timeout (fun _ => ret false)
        | None => ret false
        end ;;
      if filled then ret tt
      else
        filled_focused <-
          try_except
            (n <- await (Count focus) ;;
             if 0 <? n
             then await (Fill focus v 2000) ;;; ret true
             else ret false)
            any_exception (fun _ => ret false) ;;
        if filled_focused then ret tt
        else raise (Exception "Input operation failed")
  end.

(** [_perform_keydown] (replay.py:197-204) *)
Definition _perform_keydown (payload : value) : M B unit :=
  let key := get_if_dict payload "key" in
  if negb (truthy key) then ret tt
  else try_except (await (KeyboardPress key) ;;; ret tt)
                  any_exception
                  (fun _ => await (KeyboardType key) ;;; ret tt).

Definition dquote : string := String (ascii_of_nat 34) "".

Definition submit_buttons : locator :=
  First (Locator ("button[type=" ++ dquote ++ "submit" ++ dquote
                  ++ "], input[type=" ++ dquote ++ "submit" ++ dquote
                  ++ "]")).

Definition first_form : locator := First (Locator "form").

(** [_perform_submit] (replay.py:206-243) *)
Definition _perform_submit (payload : value) : M B unit :=
  selector <- lift (_build_selector payload) ;;
  try_except
    (pressed <-
       match usable selector with
       | Some sel =>
           n <- await (Count (Locator sel)) ;;
           if 0 <? n
           then await (Press (Locator sel) "Enter" 2000) ;;; ret true
           else ret false
       | None => ret false
       end ;;
     if pressed then ret tt
     else
       n <- await (Count submit_buttons) ;;
       if 0 <? n
       then await (Click submit_buttons 2000) ;;; ret tt
       else
         n <- await (Count focus) ;;
         if 0 <? n
         then await (Press focus "Enter" 2000) ;;; ret tt
         else
           n <- await (Count first_form) ;;
           if 0 <? n
           then await (Press first_form "Enter" 2000) ;;; ret tt
           else raise (Exception "Submit operation failed"))
    any_exception (fun e => raise e).

(** [_handle_user_action] (replay.py:76-95) *)
Definition _handle_user_action (action : string) (payload : value)
  : M B unit :=
  if String.eqb action "click" then _perform_pointer_click payload
  else if String.eqb action "hover" then _perform_pointer_move payload
  else if String.eqb action "scroll" then _perform_scroll payload
  else if String.eqb action "input" then _perform_input payload
  else if String.eqb action "keydown" then _perform_keydown payload
  else if String.eqb action "submit" then _perform_submit payload
  else ret tt.

(** [_run_step] (replay.py:44-52) *)
Definition _run_step (step : StepModel) : M B unit :=
  let '(category, subject, action) := _split_event_type (event_type step) in
  if String.eqb category "state"
  then _handle_state_step subject action (event_data_json step)
  else if String.eqb category "action" && String.eqb subject "user"
  then _handle_user_action action (event_data_json step)
  else ret tt.

(** [base_delay] of [run], in milliseconds *)
Definition base_delay (run_human_trajectory : bool) : Z :=
  if run_human_trajectory then 200 else 100.

(** The [for step in self.trajectory] loop of [run] (replay.py:29-42). *)
Fixpoint run_loop (run_human_trajectory : bool) (trajectory : list StepModel)
  : M B session :=
  match trajectory with
  | [] => ret Completed
  | step :: rest =>
      failed <- try_except (_run_step step ;;; ret false)
                           any_exception (fun _ => ret true) ;;
      if failed then ret StoppedOnError
      else sleep (base_delay run_human_trajectory) ;;;
           run_loop run_human_trajectory rest
  end.

(** [run] (replay.py:25-42) *)
Definition run (run_human_trajectory : bool) (trajectory : list StepModel)
  : M B session :=
  url <- read_url ;;
  (if negb (PyStr.is_empty url) && negb (String.eqb url about_blank)
   then mark_navigation_done else ret tt) ;;;
  run_loop run_human_trajectory trajectory.

(** A fresh executor ([__init__], replay.py:18-23) on a page. *)
Definition init (b : B) : state B := mkState b false [].

End Executor.

(* ================================================================== *)
(** * Reference behaviours the theorems compare the code with *)
(* ================================================================== *)

Section Reference.
Context {lib : PyLib} {B : Type} {br : Browser B}.
Local Open Scope replay_scope.

(** One source of coordinates: [None] when the payload does not offer
    it, otherwise the point it yields (or the exception of the
    arithmetic). *)
Definition source : Type := value -> option (result (float * float)).

(** [coordinates.<key>] with numeric [x] and [y], taken as it is. *)
Definition from_point (key : string) : source :=
  fun payload =>
    match get_if_dict payload "coordinates" with
    | PDict c =>
        if _is_valid_point (get c key)
        then Some (point_floats (get c key))
        else None
    | _ => None
    end.

(** [coordinates.relative] scaled by a viewport with numeric width and
    height, the viewport read from [coordinates] or else the payload. *)
Definition from_relative : source :=
  fun payload =>
    match get_if_dict payload "coordinates" with
    | PDict c =>
        let relative := get c "relative" in
        match py_or (get c "viewport") (get_if_dict payload "viewport") with
        | PDict v =>
            if _is_valid_point relative
               && is_number (get v "width") && is_number (get v "height")
            then Some (rx <~ py_float (get_if_dict relative "x") ;;
                       vw <~ py_float (get v "width") ;;
                       ry <~ py_float (get_if_dict relative "y") ;;
                       vh <~ py_float (get v "height") ;;
                       Ok (fmul rx vw, fmul ry vh))%result
            else None
        | _ => None
        end
    | _ => None
    end.

(** Numeric [x] and [y] at the top of the payload. *)
Definition from_flat : source :=
  fun payload =>
    let x := get_if_dict payload "x" in
    let y := get_if_dict payload "y" in
    if is_number x && is_number y
    then Some (fx <~ py_float x ;; fy <~ py_float y ;; Ok (fx, fy))%result
    else None.

(** Centre of [elementRect]: [left + width / 2], [top + height / 2],
    width and height read as 0 when absent. *)
Definition from_rect : source :=
  fun payload =>
    match get_if_dict payload "elementRect" with
    | PDict rect =>
        if is_number (get rect "left") && is_number (get rect "top")
        then Some (hw <~ py_truediv_2 (get_default rect "width" (PInt 0)) ;;
                   cx <~ py_add_float (get rect "left") hw ;;
                   hh <~ py_truediv_2 (get_default rect "height" (PInt 0)) ;;
                   cy <~ py_add_float (get rect "top") hh ;;
                   Ok (cx, cy))%result
        else None
    | _ => None
    end.

(** First source that applies wins; no source, no coordinates. *)
Fixpoint first_match (sources : list source) (payload : value)
  : result (option (float * float)) :=
  match sources with
  | [] => Ok None
  | src :: rest =>
      match src payload with
      | Some r => (xy <~ r ;; Ok (Some xy))%result
      | None => first_match rest payload
      end
  end.

Definition precedence : list source :=
  [from_point "client"; from_point "page"; from_point "offset";
   from_relative; from_flat; from_rect].

(** The state [run] starts its loop in: the flag preset when the page
    already shows a URL that is not blank. *)
Definition entry_state (s : state B) : state B :=
  if negb (PyStr.is_empty (page_url (page s)))
     && negb (String.eqb (page_url (page s)) about_blank)
  then mkState (page s) true (history s)
  else s.

(** Pacing after a step that returned. *)
Definition paced (human : bool) (s : state B) : state B :=
  snd (sleep (base_delay human) s).

(** [replayed human s steps s']: from [s], each of [steps] in order was
    run by [_run_step] and returned, each followed by the pacing sleep,
    ending in [s']. *)
Inductive replayed (human : bool) : state B -> list StepModel -> state B -> Prop :=
| replayed_nil : forall s, replayed human s [] s
| replayed_cons : forall s step s1 rest s2,
    _run_step step s = (Ok tt, s1) ->
    replayed human (paced human s1) rest s2 ->
    replayed human s (step :: rest) s2.

(** A submit strategy: the element looked for and the action performed
    on it when it is there. *)
Definition strategy : Type := (locator * call)%type.

Definition submit_strategies (selector : option string) : list strategy :=
  match selector with
  | Some sel => [(Locator sel, Press (Locator sel) "Enter" 2000)]
  | None => []
  end
  ++ [(submit_buttons, Click submit_buttons 2000);
      (focus, Press focus "Enter" 2000);
      (first_form, Press first_form "Enter" 2000)].

(** Perform the first strategy whose element is present; an exception
    of a presence check or of the action is the outcome. *)
Fixpoint first_present (chain : list strategy) : M B unit :=
  match chain with
  | [] => raise (Exception "Submit operation failed")
  | (target, action) :: rest =>
      n <- await (Count target) ;;
      if 0 <? n then await action ;;; ret tt
      else first_present rest
  end.

(** The target path ends, letter case apart, in one of the extensions
    of a static document. *)
Definition has_static_extension (target_path : string) : bool :=
  existsb (PyStr.endswith (PyStr.lower target_path)) static_extensions.

(** The state after one browser call. *)
Definition after (c : call) (s : state B) : state B := snd (await c s).

(** The result of one browser call, as the exception or nothing. *)
Definition outcome (c : call) (s : state B) : result unit :=
  match fst (await c s) with
  | Ok _ => Ok tt
  | Raise e => Raise e
  end.

End Reference.

(* ================================================================== *)
(** * A scripted browser and a URL parser for concrete runs *)
(* ================================================================== *)

Module Sim.

(** The browser shows [sim_url] and answers each call by [sim_reply]. *)
Record sim : Type := mkSim {
  sim_url : string;
  sim_reply : call -> result Z
}.

(** A document navigation or a history push that succeeds changes the
    address shown. *)
Definition sim_perform (c : call) (b : sim) : result Z * sim :=
  (sim_reply b c,
   match c, sim_reply b c with
   | Goto (PStr u) _, Ok _ => mkSim u (sim_reply b)
   | EvaluatePushState (PStr u), Ok _ => mkSim u (sim_reply b)
   | _, _ => b
   end).

#[export] Instance sim_browser : Browser sim := {
  page_url := sim_url;
  perform := sim_perform;
  asleep := fun _ b => b
}.

Definition is_char (c : ascii) (a : ascii) : bool := Ascii.eqb a c.

(** Index of the first character satisfying [p]. *)
Fixpoint find (p : ascii -> bool) (s : string) : option nat :=
  match s with
  | EmptyString => None
  | String a s' =>
      if p a then Some O
      else match find p s' with
           | Some i => Some (S i)
           | None => None
           end
  end.

Definition contains (c : ascii) (s : string) : bool :=
  match find (is_char c) s with Some _ => true | None => false end.

Definition take (n : nat) (s : string) : string := substring 0 n s.

Definition drop (n : nat) (s : string) : string :=
  substring n (String.length s - n) s.

(** [s.split(c, 1)] when [c] occurs in [s] *)
Definition cut (c : ascii) (s : string) : option (string * string) :=
  match find (is_char c) s with
  | Some i => Some (take i s, drop (S i) s)
  | None => None
  end.

Fixpoint lstrip (p : ascii -> bool) (s : string) : string :=
  match s with
  | EmptyString => EmptyString
  | String a s' => if p a then lstrip p s' else s
  end.

Fixpoint remove (p : ascii -> bool) (s : string) : string :=
  match s with
  | EmptyString => EmptyString
  | String a s' => if p a then remove p s' else String a (remove p s')
  end.

Fixpoint forallb_str (p : ascii -> bool) (s : string) : bool :=
  match s with
  | EmptyString => true
  | String a s' => p a && forallb_str p s'
  end.

Definition code (a : ascii) : nat := nat_of_ascii a.

Definition is_alpha (a : ascii) : bool :=
  ((65 <=? code a) && (code a <=? 90) || (97 <=? code a) && (code a <=? 122))%nat.

Definition is_digit (a : ascii) : bool :=
  ((48 <=? code a) && (code a <=? 57))%nat.

(** [scheme_chars] of urllib: letters, digits, [+], [-], [.] *)
Definition is_scheme_char (a : ascii) : bool :=
  is_alpha a || is_digit a
  || Ascii.eqb a "+" || Ascii.eqb a "-" || Ascii.eqb a ".".

Definition is_c0_or_space (a : ascii) : bool := (code a <=? 32)%nat.

Definition is_tab_or_newline (a : ascii) : bool :=
  ((code a =? 9) || (code a =? 10) || (code a =? 13))%nat.

Definition is_netloc_end (a : ascii) : bool :=
  Ascii.eqb a "/" || Ascii.eqb a "?" || Ascii.eqb a "#".

Definition uses_params : list string :=
  [""; "ftp"; "hdl"; "prospero"; "http"; "imap"; "https"; "shttp"; "rtsp";
   "rtspu"; "sip"; "sips"; "mms"; "sftp"; "tel"].

(** Index of the last [/] of [s], plus one; 0 when there is none. *)
Fixpoint after_last_slash (s : string) : nat :=
  match s with
  | EmptyString => O
  | String a s' =>
      match after_last_slash s' with
      | O => if Ascii.eqb a "/" then 1%nat else O
      | S i => S (S i)
      end
  end.

(** [_splitparams] of urllib: the parameters of the last segment. *)
Definition splitparams (url : string) : string * string :=
  let k := after_last_slash url in
  match cut ";" (drop k url) with
  | Some (seg, par) => (take k url ++ seg, par)
  | None => (url, "")
  end.

(** After CPython's [urllib.parse.urlparse] (3.11): strip leading C0
    and space, delete tab and newlines, split off scheme, netloc,
    fragment, query and parameters.  A netloc with one bracket only is
    a [ValueError]; the checks of a bracketed host's contents and of
    non-ASCII hosts are left out. *)
Definition urlparse_model (url0 : string) : result ParseResult :=
  let url1 := remove is_tab_or_newline (lstrip is_c0_or_space url0) in
  let '(sch, url2) :=
    match find (is_char ":") url1 with
    | Some (S i) =>
        if match url1 with String a _ => is_alpha a | _ => false end
           && forallb_str is_scheme_char (take (S i) url1)
        then (PyStr.lower (take (S i) url1), drop (S (S i)) url1)
        else ("", url1)
    | _ => ("", url1)
    end in
  let '(loc, url3) :=
    if String.eqb (take 2 url2) "//"
    then let rest := drop 2 url2 in
         match find is_netloc_end rest with
         | Some j => (take j rest, drop j rest)
         | None => (rest, "")
         end
    else ("", url2) in
  if xorb (contains "[" loc) (contains "]" loc) then Raise ValueError
  else
    let '(url4, frag) :=
      match cut "#" url3 with Some p => p | None => (url3, "") end in
    let '(url5, qry) :=
      match cut "?" url4 with Some p => p | None => (url4, "") end in
    let '(pth, par) :=
      if existsb (String.eqb sch) uses_params && contains ";" url5
      then splitparams url5 else (url5, "") in
    Ok (mkParseResult sch loc pth par qry frag).

(** The runs below use string ids, class names and numeric coordinates
    only: [str] of another value and [float] of a string are not
    reached and get fixed answers. *)
#[export] Instance sim_lib : PyLib := {
  py_repr := fun _ => "";
  float_of_str := fun _ => Raise ValueError;
  urlparse := urlparse_model
}.

(** A browser on [url] where every call succeeds and every element
    looked for is there once. *)
Definition all_ok (c : call) : result Z := Ok 1.

Definition at_url (url : string) : sim := mkSim url all_ok.

End Sim.

(* ================================================================== *)
(** * Concrete payloads and browsers used by the runs below *)
(* ================================================================== *)

Module Examples.
Import Sim.

Definition point (x y : Z) : value := PDict [("x", PInt x); ("y", PInt y)].

(** [{"coordinates": {"client": {"x": 5, "y": 7}}, "x": 1, "y": 2}] *)
Definition client_and_flat : value :=
  PDict [("coordinates", PDict [("client", point 5 7)]);
         ("x", PInt 1); ("y", PInt 2)].

(** [{"elementRect": {"left": 10, "top": 20}}] *)
Definition bare_rect : value :=
  PDict [("elementRect", PDict [("left", PInt 10); ("top", PInt 20)])].

(** [{"elementRect": {"left": 10, "top": 20, "width": null}}] *)
Definition rect_null_width : value :=
  PDict [("elementRect",
          PDict [("left", PInt 10); ("top", PInt 20); ("width", PNone)])].

Definition f5 : float := Eval cbv in binary_normalize prec emax 5 0 false.
Definition f7 : float := Eval cbv in binary_normalize prec emax 7 0 false.
Definition f10 : float := Eval cbv in binary_normalize prec emax 10 0 false.
Definition f20 : float := Eval cbv in binary_normalize prec emax 20 0 false.

Definition shop : string := "https://shop.example/cart".

(** A browser whose pointer is gone: every move raises. *)
Definition move_fails (c : call) : result Z :=
  match c with
  | MouseMove _ _ => Raise (PlaywrightError "Target page has been closed")
  | _ => Ok 1
  end.

(** Every element is there, but Enter on the element [#f] times out. *)
Definition press_times_out (c : call) : result Z :=
  match c with
  | Press (Locator "#f") _ _ => Raise (TimeoutError "Timeout 2000ms exceeded")
  | _ => Ok 1
  end.

(** Every element is there, but filling [#name] times out. *)
Definition fill_times_out (c : call) : result Z :=
  match c with
  | Fill (Locator "#name") _ _ => Raise (TimeoutError "Timeout 5000ms exceeded")
  | _ => Ok 1
  end.

(** [{"x": 1, "y": 2}] *)
Definition hover_payload : value := point 1 2.

(** [{"id": "f"}] *)
Definition form_payload : value := PDict [("id", PStr "f")].

(** [{"id": "name", "value": "Ada"}] *)
Definition input_payload : value :=
  PDict [("id", PStr "name"); ("value", PStr "Ada")].

Definition url_payload (u : string) : value := PDict [("url", PStr u)].

Definition f1 : float := Eval cbv in binary_normalize prec emax 1 0 false.
Definition f2 : float := Eval cbv in binary_normalize prec emax 2 0 false.

Definition hover_then_load : list StepModel :=
  [mkStep 1 (Some "action:user:hover") hover_payload;
   mkStep 2 (Some "state:page:load") (PDict [])].

End Examples.

(* ================================================================== *)
(** * Vocabulary of the further properties *)
(* ================================================================== *)

Module Vocabulary.

(** [c in s] for one character *)
Fixpoint has_char (c : ascii) (s : string) : bool :=
  match s with
  | EmptyString => false
  | String a s' => Ascii.eqb a c || has_char c s'
  end.

(** Every character of [s] satisfies [p]. *)
Fixpoint all_chars (p : ascii -> bool) (s : string) : bool :=
  match s with
  | EmptyString => true
  | String a s' => p a && all_chars p s'
  end.

(** Tab, newline, form feed, carriage return. *)
Definition is_line_control (c : ascii) : bool :=
  let n := nat_of_ascii c in
  ((n =? 9) || (n =? 10) || (n =? 12) || (n =? 13))%nat.

(** The character has an entry in [CSS_ESCAPE_MAP]. *)
Definition in_escape_map (c : ascii) : bool :=
  match map_get (nat_of_ascii c) CSS_ESCAPE_MAP with
  | Some _ => true
  | None => false
  end.

(** [sep.join(l)] *)
Fixpoint join_with (sep : string) (l : list string) : string :=
  match l with
  | [] => ""
  | a :: rest =>
      match rest with
      | [] => a
      | _ :: _ => a ++ sep ++ join_with sep rest
      end
  end.

(** Number of occurrences of [c] in [s]. *)
Fixpoint count_char (c : ascii) (s : string) : nat :=
  match s with
  | EmptyString => O
  | String a s' => ((if Ascii.eqb a c then 1 else 0) + count_char c s')%nat
  end.

Definition is_dict (v : value) : bool :=
  match v with PDict _ => true | _ => false end.

Definition is_str (v : value) : bool :=
  match v with PStr _ => true | _ => false end.

End Vocabulary.
Export Vocabulary.

(* ================================================================== *)
(** * Relations between the states before and after a computation *)
(* ================================================================== *)

Section Footprint.
Context {B : Type} {br : Browser B}.

(** Nothing recorded is lost: the history after extends the one
    before. *)
Definition grows (s s' : state B) : Prop :=
  exists more, history s' = (history s ++ more)%list.

(** The flag, once set, is still set. *)
Definition flag_kept (s s' : state B) : Prop :=
  _initial_navigation_done s = true -> _initial_navigation_done s' = true.

(** The flag is what it was. *)
Definition flag_same (s s' : state B) : Prop :=
  _initial_navigation_done s' = _initial_navigation_done s.

(** [m] relates every state it starts in to the state it ends in,
    whether it returns or raises. *)
Definition respects {A} (R : state B -> state B -> Prop) (m : M B A) : Prop :=
  forall s, R s (snd (m s)).

End Footprint.

(* ================================================================== *)
(** * Reference behaviours of the handlers the claims leave out *)
(* ================================================================== *)

Section HandlerReference.
Context {lib : PyLib} {B : Type} {br : Browser B}.

(** Fill the focused element if there is one; every failure of this
    strategy shows as "Input operation failed". *)
Definition focused_fill (v : value) (s : state B) : result unit * state B :=
  match await (Count focus) s with
  | (Ok n, s1) =>
      if 0 <? n
      then match await (Fill focus v 2000) s1 with
           | (Ok _, s2) => (Ok tt, s2)
           | (Raise _, s2) => (Raise (Exception "Input operation failed"), s2)
           end
      else (Raise (Exception "Input operation failed"), s1)
  | (Raise _, s1) => (Raise (Exception "Input operation failed"), s1)
  end.

(** The state after a sleep. *)
Definition rested (ms : Z) (s : state B) : state B := snd (sleep ms s).

(** The state after the flag is set. *)
Definition marked (s : state B) : state B := snd (mark_navigation_done s).

Definition user_actions : list string :=
  ["click"; "hover"; "scroll"; "input"; "keydown"; "submit"].

Definition dom_ready_actions : list string :=
  ["domcontentloaded"; "domcontentload"].

Definition load_actions : list string := ["loaded"; "load"].

End HandlerReference.

(* ================================================================== *)
(** * The recording browser ([StealthBrowser], src/browser/browser.py)

    The Playwright context, the pages, the recorder and the capture
    manager are collaborators: each operation on them is a [host_call]
    answered by an instance of [Host]. *)
(* ================================================================== *)

(** [config.browser_scripts]: the two scripts, by name. *)
Inductive script : Type :=
| STEALTH_SCRIPT
| PAGE_EVENT_LISTENER_SCRIPT.

Inductive host_call : Type :=
| ContextExposeBinding (name : string)
| ContextAddInitScript (sc : script)
| PageExposeBinding (pg : nat) (name : string)
| PageEvaluate (pg : nat) (sc : script)
| FrameEvaluate (pg : nat) (frame : nat) (sc : script)
| RecordStep (event_info : value) (prefix_action : string)
             (source_page : option nat)
| CapturerStop
| ContextClose
| PlaywrightStop
| DetachAllPageListeners.

(** Lines written by [print]. *)
Inductive notice : Type :=
| SettingUpListeners
| ListenersSetupComplete
| BrowserConsole (text : string).

Inductive host_event : Type :=
| Did (c : host_call)
| Printed (n : notice).

(** [host_perform c h] runs one operation; [page_frames h pg] is
    [page.frames] of page [pg]. *)
Class Host (H : Type) : Type := {
  host_perform : host_call -> H -> result unit * H;
  page_frames : H -> nat -> result (list nat)
}.

Section StealthBrowser.
Context {lib : PyLib} {H : Type} {ho : Host H}.

(** The fields of [StealthBrowser] that its methods branch on, the
    collaborators, and what was done to them. *)
Record stealth : Type := mkStealth {
  host : H;
  _binding_registered : bool;
  _page_script_registered : bool;
  trace : list host_event
}.

Definition Act (A : Type) : Type := stealth -> result A * stealth.

Definition sret {A} (a : A) : Act A := fun s => (Ok a, s).

Definition sraise {A} (e : exn) : Act A := fun s => (Raise e, s).

Definition sbind {A C} (m : Act A) (k : A -> Act C) : Act C :=
  fun s =>
    match m s with
    | (Ok a, s') => k a s'
    | (Raise e, s') => (Raise e, s')
    end.

(** [try: m  except Exception: h] *)
Definition stry {A} (m : Act A) (h : exn -> Act A) : Act A :=
  fun s =>
    match m s with
    | (Ok a, s') => (Ok a, s')
    | (Raise e, s') => h e s'
    end.

Definition request (c : host_call) : Act unit :=
  fun s =>
    let (r, h) := host_perform c (host s) in
    (r, mkStealth h (_binding_registered s) (_page_script_registered s)
                  (trace s ++ [Did c])).

Definition print (n : notice) : Act unit :=
  fun s =>
    (Ok tt, mkStealth (host s) (_binding_registered s)
                      (_page_script_registered s) (trace s ++ [Printed n])).

Definition frames_of (pg : nat) : Act (list nat) :=
  fun s => (page_frames (host s) pg, s).

Definition set_binding_registered : Act unit :=
  fun s => (Ok tt, mkStealth (host s) true (_page_script_registered s) (trace s)).

Definition set_page_script_registered : Act unit :=
  fun s => (Ok tt, mkStealth (host s) (_binding_registered s) true (trace s)).

Definition binding_registered : Act bool :=
  fun s => (Ok (_binding_registered s), s).

Definition page_script_registered : Act bool :=
  fun s => (Ok (_page_script_registered s), s).

(** [setup_dom_listeners] (browser.py:96-122) *)
Definition setup_dom_listeners : Act unit :=
  sbind (print SettingUpListeners) (fun _ =>
  sbind binding_registered (fun registered =>
  sbind (if negb registered
         then sbind (request (ContextExposeBinding "onPageEvent"))
                    (fun _ => set_binding_registered)
         else sret tt) (fun _ =>
  sbind page_script_registered (fun installed =>
  sbind (if negb installed
         then sbind (request (ContextAddInitScript PAGE_EVENT_LISTENER_SCRIPT))
                    (fun _ => set_page_script_registered)
         else sret tt) (fun _ =>
  print ListenersSetupComplete))))).

(** The [for frame in page.frames] loop of
    [_initialize_page_event_script], each evaluation in its own
    [try]/[except Exception: pass]. *)
Fixpoint install_on_frames (pg : nat) (frames : list nat) : Act unit :=
  match frames with
  | [] => sret tt
  | frame :: rest =>
      sbind (stry (request (FrameEvaluate pg frame PAGE_EVENT_LISTENER_SCRIPT))
                  (fun _ => sret tt))
            (fun _ => install_on_frames pg rest)
  end.

(** [_initialize_page_event_script] (browser.py:124-148); [None] is a
    falsy [page]. *)
Definition _initialize_page_event_script (pg : option nat) : Act unit :=
  match pg with
  | None => sret tt
  | Some p =>
      stry
        (sbind (stry (request (PageExposeBinding p "onPageEvent"))
                     (fun _ => sret tt)) (fun _ =>
         sbind (request (PageEvaluate p PAGE_EVENT_LISTENER_SCRIPT)) (fun _ =>
         stry (sbind (frames_of p) (install_on_frames p))
              (fun _ => sret tt))))
        (fun _ => sret tt)
  end.

(** [handle_page_event] (browser.py:150-165); [event_info.get] exists
    only on a dict. *)
Definition handle_page_event (event_info : value) (pg : option nat) : Act unit :=
  stry
    (match event_info with
     | PDict d =>
         let event_context := get_default d "event_context" (PStr "unknown") in
         request (RecordStep event_info (py_str event_context) pg)
     | _ => sraise AttributeError
     end)
    (fun _ => sret tt).


End StealthBrowser.

Arguments stealth H : clear implicits.
Arguments Act H A : clear implicits.

(** Pure parts of [StealthBrowser.launch] and [launch_browser]. *)
Module Launch.

(** [needle in text] *)
Fixpoint occurs (needle text : string) : bool :=
  String.prefix needle text
  || match text with
     | EmptyString => false
     | String _ rest => occurs needle rest
     end.

Definition blocked_in_blank : string :=
  "Blocked script execution in 'about:blank'".

Definition failed_post_message : string :=
  "Failed to execute 'postMessage'".

Definition blocked_anywhere : string := "Blocked script execution in".

(** [console_handler] of [launch] (browser.py:75-84): whether the
    console message [text] is printed. *)
Definition console_shown (text : string) : bool :=
  if occurs blocked_in_blank text then false
  else if occurs failed_post_message text then false
  else if occurs blocked_anywhere text then false
  else true.

Fixpoint lstrip_ws (s : string) : string :=
  match s with
  | EmptyString => EmptyString
  | String a s' => if PyStr.isspace a then lstrip_ws s' else s
  end.

Fixpoint rstrip_ws (s : string) : string :=
  match s with
  | EmptyString => EmptyString
  | String a s' =>
      let r := rstrip_ws s' in
      if PyStr.isspace a && PyStr.is_empty r then EmptyString else String a r
  end.

(** [s.strip()] *)
Definition strip (s : string) : string := lstrip_ws (rstrip_ws s).

(** [preferred_channel] of [launch_browser] (browser.py:176-178):
    [os.environ.get("RECORDER_BROWSER_CHANNEL", "chrome").strip() or
    None], as a function of the variable ([None] when unset). *)
Definition preferred_channel (env : option string) : option string :=
  let v := strip (match env with Some s => s | None => "chrome" end) in
  if PyStr.is_empty v then None else Some v.

(** The first and the last character of [s] are not white space. *)
Definition starts_with_space (s : string) : bool :=
  match s with
  | EmptyString => false
  | String a _ => PyStr.isspace a
  end.

Fixpoint ends_with_space (s : string) : bool :=
  match s with
  | EmptyString => false
  | String a s' =>
      match s' with
      | EmptyString => PyStr.isspace a
      | String _ _ => ends_with_space s'
      end
  end.

End Launch.

(* ================================================================== *)
(** * Vocabulary and a scripted host for the recording browser *)
(* ================================================================== *)

Section StealthReference.
Context {H : Type} {ho : Host H}.

(** The browser object after one request to a collaborator. *)
Definition after_request (c : host_call) (s : stealth H) : stealth H :=
  snd (request c s).

(** The requests that install the listener script on the frames. *)
Definition frame_installs (pg : nat) (frames : list nat) : list host_event :=
  map (fun frame => Did (FrameEvaluate pg frame PAGE_EVENT_LISTENER_SCRIPT))
      frames.


End StealthReference.

Module SimHost.

(** A host whose requests fail exactly on [refuses] and whose pages
    all have the frames [frame_ids]. *)
Record sim_host : Type := mkSimHost {
  refuses : host_call -> bool;
  frame_ids : list nat
}.

#[export] Instance sim_host_ops : Host sim_host := {
  host_perform := fun c h =>
    (if refuses h c then Raise (PlaywrightError "refused") else Ok tt, h);
  page_frames := fun h _ => Ok (frame_ids h)
}.

Definition obliging : sim_host := mkSimHost (fun _ => false) [0%nat; 1%nat; 2%nat].

(** Refuses the listener script on frame 1 and the page-level
    binding. *)
Definition picky : sim_host :=
  mkSimHost (fun c => match c with
                      | FrameEvaluate _ 1%nat _ => true
                      | PageExposeBinding _ _ => true
                      | _ => false
                      end)
            [0%nat; 1%nat; 2%nat].

(** Refuses the context-level binding. *)
Definition no_binding : sim_host :=
  mkSimHost (fun c => match c with
                      | ContextExposeBinding _ => true
                      | _ => false
                      end)
            [].


(** The page refuses every script. *)
Definition deaf_page : sim_host :=
  mkSimHost (fun c => match c with PageEvaluate _ _ => true | _ => false end)
            [0%nat; 1%nat].

Definition fresh (h : sim_host) : stealth sim_host := mkStealth h false false [].

End SimHost.

(* ================================================================== *)
(** * More payloads, steps and browsers for concrete runs *)
(* ================================================================== *)

Module MoreExamples.
Import Sim Examples.

(** A browser on which every call raises. *)
Definition all_fail (c : call) : result Z :=
  Raise (PlaywrightError "Target page has been closed").

(** Pressing a key raises; typing works. *)
Definition press_fails (c : call) : result Z :=
  match c with
  | KeyboardPress _ => Raise (PlaywrightError "Unknown key")
  | _ => Ok 1
  end.

(** Filling [#name] raises an error that is not a timeout. *)
Definition fill_rejected (c : call) : result Z :=
  match c with
  | Fill (Locator "#name") _ _ =>
      Raise (PlaywrightError "Element is not an <input>")
  | _ => Ok 1
  end.

(** Filling [#name] times out and no element has the focus. *)
Definition fill_times_out_unfocused (c : call) : result Z :=
  match c with
  | Fill (Locator "#name") _ _ => Raise (TimeoutError "Timeout 5000ms exceeded")
  | Count (Locator ":focus") => Ok 0
  | _ => Ok 1
  end.

(** [{"x": 0, "y": 250}] *)
Definition scroll_payload : value := point 0 250.

(** [{"key": "Enter"}] *)
Definition key_payload : value := PDict [("key", PStr "Enter")].

(** [{"className": "btn", "tag": 5}] *)
Definition numeric_tag_payload : value :=
  PDict [("className", PStr "btn"); ("tag", PInt 5)].

(** [{"url": 5}] *)
Definition numeric_url_payload : value := PDict [("url", PInt 5)].

(** A step recorded by the browser that the executor has no handler
    for. *)
Definition system_step : StepModel :=
  mkStep 9 (Some "action:system:click") hover_payload.

(** [{"event_type": "click", "event_context": "action:user"}] *)
Definition click_event : value :=
  PDict [("event_type", PStr "click"); ("event_context", PStr "action:user")].

End MoreExamples.

(* ================================================================== *)
(** * Lemmas and theorems *)
(* ================================================================== *)

Ltac unfold_monad :=
  unfold bind, ret, raise, try_except, lift, sleep, read_url, read_flag,
    mark_navigation_done, any_exception in *.

Section Orchestrator.
Context {lib : PyLib} {B : Type} {br : Browser B}.

Lemma run_enters_loop (human : bool) (trajectory : list StepModel) (s : state B) :
  run human trajectory s = run_loop human trajectory (entry_state s).
Proof.
  unfold run, entry_state. unfold_monad. cbn.
  destruct (negb (PyStr.is_empty (page_url (page s)))
            && negb (String.eqb (page_url (page s)) about_blank));
    reflexivity.
Qed.

Lemma run_loop_step_ok (human : bool) step rest (s s1 : state B) :
  _run_step step s = (Ok tt, s1) ->
  run_loop human (step :: rest) s = run_loop human rest (paced human s1).
Proof.
  intros Hstep. cbn [run_loop]. unfold paced. unfold_monad.
  rewrite Hstep. reflexivity.
Qed.

Lemma run_loop_step_raise (human : bool) step rest (s s1 : state B) e :
  _run_step step s = (Raise e, s1) ->
  run_loop human (step :: rest) s = (Ok StoppedOnError, s1).
Proof.
  intros Hstep. cbn [run_loop]. unfold_monad.
  rewrite Hstep. reflexivity.
Qed.

Lemma run_loop_fail_fast (human : bool) (trajectory : list StepModel) :
  forall s : state B,
    (exists s',
        run_loop human trajectory s = (Ok Completed, s')
        /\ replayed human s trajectory s')
    \/ (exists done step later s1 s' e,
           trajectory = (done ++ step :: later)%list
           /\ replayed human s done s1
           /\ _run_step step s1 = (Raise e, s')
           /\ run_loop human trajectory s = (Ok StoppedOnError, s')).
Proof.
  induction trajectory as [|step rest IH]; intros s.
  - left. exists s. split; [reflexivity | constructor].
  - destruct (_run_step step s) as [[[]|e] s1] eqn:Hstep.
    + rewrite (@run_loop_step_ok human step rest s s1 Hstep).
      destruct (IH (paced human s1))
        as [(s' & Hrun & Hrep)
           |(done & bad & later & sb & s' & e & Heq & Hrep & Hbad & Hrun)].
      * left. exists s'. split; [exact Hrun|].
        econstructor; eassumption.
      * right. exists (step :: done), bad, later, sb, s', e.
        repeat split.
        -- rewrite Heq. reflexivity.
        -- econstructor; eassumption.
        -- exact Hbad.
        -- exact Hrun.
    + right. exists [], step, rest, s, s1, e.
      repeat split.
      * constructor.
      * exact Hstep.
      * exact (@run_loop_step_raise human step rest s s1 e Hstep).
Qed.

(** C1 -- Fail-fast orchestration.  For every trajectory and every
    starting state, [run] processes the steps strictly in the order of
    the list, each from the state the previous one (and its pacing
    sleep) left.  Either every step returns, all of them are processed
    and the session ends [Completed]; or some step raises, the steps
    before it were processed in order, and [run] ends [StoppedOnError]
    in exactly the state in which that step raised, so nothing of a
    later step is executed. *)
Theorem run_fail_fast (human : bool) (trajectory : list StepModel) (s : state B) :
  (exists s',
      run human trajectory s = (Ok Completed, s')
      /\ replayed human (entry_state s) trajectory s')
  \/ (exists done step later s1 s' e,
         trajectory = (done ++ step :: later)%list
         /\ replayed human (entry_state s) done s1
         /\ _run_step step s1 = (Raise e, s')
         /\ run human trajectory s = (Ok StoppedOnError, s')).
Proof.
  rewrite run_enters_loop. apply run_loop_fail_fast.
Qed.

End Orchestrator.

(** Case analysis on the conjuncts of a condition, leftmost first. *)
Ltac split_bool :=
  match goal with
  | |- context [andb ?a _] =>
      lazymatch a with
      | andb _ _ => fail
      | true => fail
      | false => fail
      | _ => destruct a eqn:?; cbn [andb]
      end
  | |- context [if ?a then _ else _] =>
      lazymatch a with
      | andb _ _ => fail
      | _ => destruct a eqn:?
      end
  end.

(** Case analysis on the computations sequenced by [<~]. *)
Ltac split_result :=
  match goal with
  | |- context [rbind ?m _] =>
      lazymatch m with
      | context [rbind _ _] => fail
      | context [if _ then _ else _] => fail
      | _ => destruct m; cbn [rbind]
      end
  end.

Ltac settle_branches :=
  repeat split_bool; cbn [rbind]; repeat split_result; try reflexivity.

Section TargetingFacts.
Context {lib : PyLib}.

Lemma extract_cascade (payload : value) :
  _extract_coordinates payload = first_match precedence payload.
Proof.
  unfold _extract_coordinates, precedence, first_match,
    from_point, from_relative, from_flat, from_rect.
  destruct (get_if_dict payload "coordinates") as [| | | | | |c];
    cbn [rbind first_point].
  7: {
    destruct (_is_valid_point (get c "client"));
      [destruct (point_floats (get c "client")); reflexivity|].
    destruct (_is_valid_point (get c "page"));
      [destruct (point_floats (get c "page")); reflexivity|].
    destruct (_is_valid_point (get c "offset"));
      [destruct (point_floats (get c "offset")); reflexivity|].
    cbn [rbind].
    destruct (py_or (get c "viewport") (get_if_dict payload "viewport"));
      cbn [get_if_dict];
      rewrite ?andb_false_r; cbn [rbind].
    7: destruct (_is_valid_point (get c "relative")); cbn [andb rbind].
    all: destruct (get_if_dict payload "elementRect"); settle_branches.
  }
  all: destruct (get_if_dict payload "elementRect"); settle_branches.
Qed.

End TargetingFacts.

Section CoordinateClaims.
Context {lib : PyLib}.

Lemma fadd_zero (f : float) : same_float (fadd f fzero) f.
Proof.
  destruct f as [[|]| | |]; cbn.
  - right. eauto.
  - left. reflexivity.
  - left. reflexivity.
  - left. reflexivity.
  - left. reflexivity.
Qed.

Lemma half_of_zero : py_truediv_2 (PInt 0) = Ok fzero.
Proof. reflexivity. Qed.

Lemma add_number_zero (v : value) (f : float) :
  is_number v = true -> py_float v = Ok f ->
  exists x, py_add_float v fzero = Ok x /\ same_float x f.
Proof.
  intros Hnum Hf.
  destruct v; try discriminate Hnum; cbn in Hf |- *.
  - rewrite Hf. cbn. eexists; split; [reflexivity | apply fadd_zero].
  - rewrite Hf. cbn. eexists; split; [reflexivity | apply fadd_zero].
  - injection Hf as ->. eexists; split; [reflexivity | apply fadd_zero].
Qed.

Lemma point_floats_verbatim (d : dict) (fx fy : float) :
  lookup "x" d = Some (PFloat fx) -> lookup "y" d = Some (PFloat fy) ->
  point_floats (PDict d) = Ok (fx, fy).
Proof.
  intros Hx Hy. unfold point_floats, get_if_dict, get, get_default.
  rewrite Hx, Hy. reflexivity.
Qed.

(** C4 -- Coordinate-extraction precedence.  For every payload,
    [_extract_coordinates] is the first-match-wins reading of the
    sources in this order: [coordinates.client], [coordinates.page],
    [coordinates.offset] (a dict with numeric [x] and [y], returned as
    [float(x), float(y)]), then [coordinates.relative] scaled by a
    viewport with numeric width and height, then flat numeric [x]/[y],
    then the centre of [elementRect], else no coordinates.  In
    particular a payload with a valid [coordinates.client] resolves to
    the client point whatever else it holds (flat [x]/[y] included),
    and a point given by floats is returned verbatim. *)
Theorem extract_coordinates_precedence :
  (forall payload : value,
      _extract_coordinates payload = first_match precedence payload)
  /\ (forall (payload : value) (c : dict),
         get_if_dict payload "coordinates" = PDict c ->
         _is_valid_point (get c "client") = true ->
         _extract_coordinates payload
         = (xy <~ point_floats (get c "client") ;; Ok (Some xy))%result)
  /\ (forall (d : dict) (fx fy : float),
         lookup "x" d = Some (PFloat fx) ->
         lookup "y" d = Some (PFloat fy) ->
         point_floats (PDict d) = Ok (fx, fy)).
Proof.
  split; [exact extract_cascade|]. split; [|exact point_floats_verbatim].
  intros payload c Hc Hvalid.
  rewrite extract_cascade.
  unfold precedence, first_match, from_point.
  rewrite Hc, Hvalid. reflexivity.
Qed.

(** C10 -- [elementRect] needs numeric [left] and [top] only.  When no
    earlier source applies and [elementRect] holds numeric [left] and
    [top] (values [float()] can represent) but neither [width] nor
    [height], both default to 0 and the payload resolves to the point
    (left, top) -- the same floats, a negative zero showing as zero. *)
Theorem rect_without_size_resolves
    (payload : value) (rect : dict) (l t : value) (fl ft : float) :
  from_point "client" payload = None ->
  from_point "page" payload = None ->
  from_point "offset" payload = None ->
  from_relative payload = None ->
  from_flat payload = None ->
  get_if_dict payload "elementRect" = PDict rect ->
  lookup "width" rect = None ->
  lookup "height" rect = None ->
  lookup "left" rect = Some l ->
  lookup "top" rect = Some t ->
  is_number l = true ->
  is_number t = true ->
  py_float l = Ok fl ->
  py_float t = Ok ft ->
  exists x y,
    _extract_coordinates payload = Ok (Some (x, y))
    /\ same_float x fl /\ same_float y ft.
Proof.
  intros Hc Hp Ho Hr Hf Hrect Hw Hh Hl Ht Nl Nt Fl Ft.
  destruct (add_number_zero l Nl Fl) as (x & Hx & Sx).
  destruct (add_number_zero t Nt Ft) as (y & Hy & Sy).
  exists x, y. split; [|split; assumption].
  rewrite extract_cascade.
  unfold precedence, first_match.
  rewrite Hc, Hp, Ho, Hr, Hf.
  unfold from_rect, get, get_default.
  rewrite Hrect, Hw, Hh, Hl, Ht, Nl, Nt. cbn [andb].
  rewrite half_of_zero. cbn [rbind].
  rewrite Hx, Hy. reflexivity.
Qed.

End CoordinateClaims.

Section Navigation.
Context {lib : PyLib} {B : Type} {br : Browser B}.

Lemma is_empty_false (u : string) : u <> "" -> PyStr.is_empty u = false.
Proof. destruct u; [congruence | reflexivity]. Qed.

Lemma is_empty_true (u : string) : PyStr.is_empty u = true -> u = "".
Proof. destruct u; [reflexivity | discriminate]. Qed.

Lemma _safe_goto_returns (url : value) (s : state B) :
  exists b,
    _safe_goto url s
    = (Ok tt, mkState b (_initial_navigation_done s)
                      (history s ++ [Call (Goto url "domcontentloaded")])).
Proof.
  unfold _safe_goto, await. unfold_monad.
  destruct (perform (Goto url "domcontentloaded") (page s)) as [[n|e] b];
    exists b; reflexivity.
Qed.

Lemma _perform_spa_navigation_returns (url : value) (s : state B) :
  exists s',
    _perform_spa_navigation url s = (Ok tt, s')
    /\ _initial_navigation_done s' = _initial_navigation_done s.
Proof.
  unfold _perform_spa_navigation, await. unfold_monad.
  destruct (perform (EvaluatePushState url) (page s)) as [[n|e] b]; cbn.
  - eexists. split; reflexivity.
  - match goal with
    | |- context [_safe_goto url ?st] =>
        destruct (_safe_goto_returns url st) as (b' & ->)
    end.
    eexists. split; reflexivity.
Qed.

Lemma _is_spa_route_change_reads_only (target_url : value) (s : state B) :
  exists spa, _is_spa_route_change target_url s = (Ok spa, s).
Proof.
  unfold _is_spa_route_change. unfold_monad.
  destruct (PyStr.is_empty (page_url (page s))
            || String.eqb (page_url (page s)) about_blank).
  - eexists; reflexivity.
  - destruct (spa_decision (page_url (page s)) target_url);
      eexists; reflexivity.
Qed.

Lemma blank_page_is_real_navigation (target_url : value) (s : state B) :
  page_url (page s) = "" \/ page_url (page s) = about_blank ->
  _is_spa_route_change target_url s = (Ok false, s).
Proof.
  intros Hblank. unfold _is_spa_route_change. unfold_monad.
  destruct Hblank as [-> | ->]; reflexivity.
Qed.

(** C2 (amended) -- SPA-vs-real classification.  On a page whose URL is
    empty or the blank-page sentinel every navigation is classified
    real.  Otherwise, with [c] and [t] the parsed current and target
    URLs: a different scheme or host is real; the same origin with
    identical path and query is an SPA route change; the same origin
    with a differing path or query is an SPA route change when [t]'s
    path does not end (letter case apart) in .html, .htm, .php, .asp or
    .jsp, and real when it does.  The page and the executor are left
    as they were. *)
Theorem spa_classification :
  (forall (s : state B) (target_url : value),
      page_url (page s) = "" \/ page_url (page s) = about_blank ->
      _is_spa_route_change target_url s = (Ok false, s))
  /\ (forall (s : state B) (t_url : string) (c t : ParseResult),
         page_url (page s) <> "" ->
         page_url (page s) <> about_blank ->
         urlparse (page_url (page s)) = Ok c ->
         urlparse t_url = Ok t ->
         exists spa,
           _is_spa_route_change (PStr t_url) s = (Ok spa, s)
           /\ (scheme c <> scheme t \/ netloc c <> netloc t -> spa = false)
           /\ (scheme c = scheme t -> netloc c = netloc t ->
               path c = path t -> query c = query t -> spa = true)
           /\ (scheme c = scheme t -> netloc c = netloc t ->
               path c <> path t \/ query c <> query t ->
               has_static_extension (path t) = false -> spa = true)
           /\ (scheme c = scheme t -> netloc c = netloc t ->
               path c <> path t \/ query c <> query t ->
               has_static_extension (path t) = true -> spa = false)).
Proof.
  split; [exact (fun s u => @blank_page_is_real_navigation u s)|].
  intros s t_url c t Hne Hnb Hc Ht.
  unfold _is_spa_route_change. unfold_monad.
  rewrite (is_empty_false Hne).
  apply String.eqb_neq in Hnb. rewrite Hnb. cbn [orb].
  unfold spa_decision, urlparse_value. rewrite Hc, Ht. cbn [rbind].
  fold (has_static_extension (path t)).
  destruct (String.eqb_spec (scheme c) (scheme t)) as [Es|Es];
    destruct (String.eqb_spec (netloc c) (netloc t)) as [En|En];
    cbn [negb orb andb].
  2-4: eexists; split; [reflexivity|];
    repeat split; intros; try reflexivity; try contradiction; tauto.
  destruct (String.eqb_spec (path c) (path t)) as [Ep|Ep];
    destruct (String.eqb_spec (query c) (query t)) as [Eq|Eq];
    cbn [andb].
  1: eexists; split; [reflexivity|];
    repeat split; intros; try reflexivity; tauto.
  all: destruct (has_static_extension (path t)) eqn:Hext;
    eexists; (split; [reflexivity|]);
    repeat split; intros; try reflexivity; try congruence; tauto.
Qed.

(** C3 (amended) -- Redundant-navigation skip.  When a real navigation
    has already happened ([_initial_navigation_done] is true), the page
    shows a non-empty URL, and the step's target equals that URL after
    stripping the trailing slashes of both, the handler returns with
    the executor, the page and the history of browser calls exactly as
    they were: no history push and no document navigation is issued. *)
Theorem redundant_navigation_skipped
    (payload : value) (t : string) (s : state B) :
  get_if_dict payload "url" = PStr t ->
  _initial_navigation_done s = true ->
  page_url (page s) <> "" ->
  PyStr.rstrip "/" (page_url (page s)) = PyStr.rstrip "/" t ->
  _handle_state_step "browser" "navigated" payload s = (Ok tt, s).
Proof.
  intros Hurl Hdone Hne Hsame.
  unfold _handle_state_step. cbn [String.eqb Ascii.eqb Bool.eqb andb].
  rewrite Hurl.
  destruct (negb (truthy (PStr t)) || eq_str (PStr t) about_blank);
    [reflexivity|].
  unfold_monad. rewrite Hdone. cbn [negb].
  unfold _urls_differ. rewrite (is_empty_false Hne), Hsame.
  rewrite String.eqb_refl. reflexivity.
Qed.


End Navigation.

Section Actions.
Context {lib : PyLib} {B : Type} {br : Browser B}.
Local Open Scope replay_scope.

(** Case analysis on the answers of the browser, in program order. *)
Ltac ask_browser :=
  repeat (match goal with
          | |- context [perform ?c ?b] =>
              lazymatch b with
              | context [perform _ _] => fail
              | _ => destruct (perform c b) as [[?|?] ?]; cbn
              end
          | |- context [if (0 <? ?n) then _ else _] => destruct (0 <? n); cbn
          end).

Lemma first_present_none (s : state B) :
  first_present [] s = (Raise (Exception "Submit operation failed"), s).
Proof. reflexivity. Qed.

Lemma first_present_absent target action rest (s : state B) n :
  fst (await (Count target) s) = Ok n -> n <= 0 ->
  first_present ((target, action) :: rest) s
  = first_present rest (after (Count target) s).
Proof.
  intros Hn Hle. cbn [first_present]. unfold after. unfold_monad.
  destruct (await (Count target) s) as [r s1]. cbn in Hn |- *. subst r.
  destruct (Z.ltb_spec 0 n); [lia | reflexivity].
Qed.

Lemma first_present_hit target action rest (s : state B) n :
  fst (await (Count target) s) = Ok n -> 0 < n ->
  first_present ((target, action) :: rest) s
  = (outcome action (after (Count target) s),
     after action (after (Count target) s)).
Proof.
  intros Hn Hlt. cbn [first_present]. unfold after, outcome. unfold_monad.
  destruct (await (Count target) s) as [r s1]. cbn in Hn |- *. subst r.
  destruct (Z.ltb_spec 0 n); [|lia].
  destruct (await action s1) as [[k|e] s2]; reflexivity.
Qed.

Lemma first_present_check_raises target action rest (s : state B) e :
  fst (await (Count target) s) = Raise e ->
  first_present ((target, action) :: rest) s
  = (Raise e, after (Count target) s).
Proof.
  intros He. cbn [first_present]. unfold after. unfold_monad.
  destruct (await (Count target) s) as [r s1]. cbn in He |- *. subst r.
  reflexivity.
Qed.

Lemma submit_is_first_present (payload : value) (s : state B) :
  _perform_submit payload s
  = (selector <- lift (_build_selector payload) ;;
     first_present (submit_strategies (usable selector))) s.
Proof.
  unfold _perform_submit, submit_strategies. unfold_monad.
  destruct (_build_selector payload) as [selector|e]; [|reflexivity].
  destruct (usable selector) as [sel|]; cbn [app first_present];
    unfold_monad; unfold await; cbn; ask_browser; reflexivity.
Qed.

(** C6 (amended) -- Submit chain.  The handler goes through up to four
    strategies in order -- Enter on the element of the payload's
    selector, click on the first submit-type button, Enter on the
    focused element, Enter on the first form, each with a 2 s timeout
    -- and performs the first one whose element is present, and only
    that one.  An absent element moves on to the next strategy; an
    exception of a presence check or of the performed action is the
    handler's exception at once, later strategies untried; with no
    element present the handler raises "Submit operation failed". *)
Theorem submit_fallback_chain :
  (forall (payload : value) (s : state B),
      _perform_submit payload s
      = (selector <- lift (_build_selector payload) ;;
         first_present (submit_strategies (usable selector))) s)
  /\ (forall target action rest (s : state B) n,
         fst (await (Count target) s) = Ok n -> n <= 0 ->
         first_present ((target, action) :: rest) s
         = first_present rest (after (Count target) s))
  /\ (forall target action rest (s : state B) n,
         fst (await (Count target) s) = Ok n -> 0 < n ->
         first_present ((target, action) :: rest) s
         = (outcome action (after (Count target) s),
            after action (after (Count target) s)))
  /\ (forall target action rest (s : state B) e,
         fst (await (Count target) s) = Raise e ->
         first_present ((target, action) :: rest) s
         = (Raise e, after (Count target) s))
  /\ (forall s : state B,
         first_present [] s
         = (Raise (Exception "Submit operation failed"), s)).
Proof.
  split; [exact submit_is_first_present|].
  split; [exact first_present_absent|].
  split; [exact first_present_hit|].
  split; [exact first_present_check_raises | exact first_present_none].
Qed.

(** The input handler on its two claimed paths: without a [value]
    nothing happens; after a selector fill (5 s) that timed out the
    handler looks for the focused element and, if it is there, fills it
    (2 s), raising "Input operation failed" when that fails too. *)
Lemma input_after_selector_timeout (payload : value) (s : state B) :
  (get_if_dict payload "value" = PNone ->
   _perform_input payload s = (Ok tt, s))
  /\ (forall (selector : option string) (sel msg : string),
         get_if_dict payload "value" <> PNone ->
         _build_selector payload = Ok selector ->
         usable selector = Some sel ->
         fst (await (Fill (Locator sel) (get_if_dict payload "value") 5000) s)
         = Raise (TimeoutError msg) ->
         _perform_input payload s
         = match await (Count focus)
                       (after (Fill (Locator sel)
                                    (get_if_dict payload "value") 5000) s) with
           | (Ok n, s2) =>
               if 0 <? n
               then match await (Fill focus (get_if_dict payload "value") 2000)
                                s2 with
                    | (Ok _, s3) => (Ok tt, s3)
                    | (Raise _, s3) =>
                        (Raise (Exception "Input operation failed"), s3)
                    end
               else (Raise (Exception "Input operation failed"), s2)
           | (Raise _, s2) =>
               (Raise (Exception "Input operation failed"), s2)
           end).
Proof.
  split.
  - intros Hv. unfold _perform_input. rewrite Hv. reflexivity.
  - intros selector sel msg Hv Hsel Huse Htimeout.
    unfold _perform_input, after.
    set (v := get_if_dict payload "value") in *.
    destruct (await (Fill (Locator sel) v 5000) s) as [r s1] eqn:Hfill.
    cbn in Htimeout. subst r.
    assert (Hgo :
      (selector0 <- lift (_build_selector payload) ;;
       filled <-
         match usable selector0 with
         | Some sel0 =>
             try_except (await (Fill (Locator sel0) v 5000) ;;; ret true)
                        is_timeout (fun _ => ret false)
         | None => ret false
         end ;;
       if filled then ret tt
       else
         filled_focused <-
           try_except
             (n <- await (Count focus) ;;
              if 0 <? n
              then await (Fill focus v 2000) ;;; ret true
              else ret false)
             any_exception (fun _ => ret false) ;;
         if filled_focused then ret tt
         else raise (Exception "Input operation failed")) s
      = match await (Count focus) s1 with
        | (Ok n, s2) =>
            if 0 <? n
            then match await (Fill focus v 2000) s2 with
                 | (Ok _, s3) => (Ok tt, s3)
                 | (Raise _, s3) =>
                     (Raise (Exception "Input operation failed"), s3)
                 end
            else (Raise (Exception "Input operation failed"), s2)
        | (Raise _, s2) => (Raise (Exception "Input operation failed"), s2)
        end).
    { unfold_monad. rewrite Hsel, Huse, Hfill. cbn [is_timeout snd].
      destruct (await (Count focus) s1) as [[n|e] s2]; [|reflexivity].
      destruct (0 <? n); [|reflexivity].
      destruct (await (Fill focus v 2000) s2) as [[k|e] s3]; reflexivity. }
    cbn [snd].
    destruct v eqn:Ev; try exact Hgo. congruence.
Qed.

(** C8 (amended) -- Hover.  The hover handler has no error path and no
    fallback of its own.  When coordinate extraction yields no
    coordinates it returns with nothing called and nothing changed;
    when it yields a point the handler performs exactly one pointer
    move to it and ends as that move ends, returning when it returns
    and raising what it raises. *)
Theorem hover_only_moves (payload : value) (s : state B) :
  (_extract_coordinates payload = Ok None ->
   _perform_pointer_move payload s = (Ok tt, s))
  /\ (forall x y : float,
         _extract_coordinates payload = Ok (Some (x, y)) ->
         _perform_pointer_move payload s
         = (outcome (MouseMove x y) s, after (MouseMove x y) s)).
Proof.
  split.
  - intros Hnone. unfold _perform_pointer_move. unfold_monad.
    rewrite Hnone. reflexivity.
  - intros x y Hxy. unfold _perform_pointer_move, outcome, after.
    unfold_monad. rewrite Hxy.
    destruct (await (MouseMove x y) s) as [[n|e] s1]; reflexivity.
Qed.

End Actions.

Section Selectors.
Context {lib : PyLib}.

(** C5 -- Selector construction at the inputs of the claim.  With a
    truthy [id] the selector is [#] followed by [_css_escape] of the
    id; the escape table sends the space to itself, so the id
    [foo bar] gives [#foo bar] (a descendant selector) and not
    [#foo\ bar].  The class form is as claimed: [className = "a b"],
    [tag = "DIV"] give [div.a.b]. *)
Theorem selector_of_id_with_space :
  (forall payload : value,
      truthy (get_if_dict payload "id") = true ->
      _build_selector payload
      = Ok (Some ("#" ++ _css_escape (py_str (get_if_dict payload "id")))))
  /\ escape_char " " = " "
  /\ _build_selector (PDict [("id", PStr "foo bar")]) = Ok (Some "#foo bar")
  /\ "#foo bar" <> "#foo" ++ backslash ++ " bar"
  /\ _build_selector (PDict [("className", PStr "a b"); ("tag", PStr "DIV")])
     = Ok (Some "div.a.b").
Proof.
  split.
  - intros payload Hid. unfold _build_selector. rewrite Hid. reflexivity.
  - repeat split; try reflexivity. discriminate.
Qed.

End Selectors.

(* ================================================================== *)
(** * Concrete runs on the scripted browser *)
(* ================================================================== *)

Section Runs.
Import Sim Examples.

Lemma extract_coordinates_precedence_witness :
  get_if_dict client_and_flat "coordinates" = PDict [("client", point 5 7)]
  /\ _is_valid_point (get [("client", point 5 7)] "client") = true
  /\ is_number (get_if_dict client_and_flat "x") = true
  /\ _extract_coordinates client_and_flat = Ok (Some (f5, f7)).
Proof.
  split; [reflexivity|]. split; [reflexivity|]. split; [reflexivity|].
  rewrite (proj1 (proj2 extract_coordinates_precedence)
             client_and_flat [("client", point 5 7)] eq_refl eq_refl).
  reflexivity.
Defined.

Lemma rect_without_size_resolves_witness :
  exists x y,
    _extract_coordinates bare_rect = Ok (Some (x, y))
    /\ same_float x f10 /\ same_float y f20.
Proof.
  apply (@rect_without_size_resolves sim_lib bare_rect
           [("left", PInt 10); ("top", PInt 20)] (PInt 10) (PInt 20) f10 f20);
    reflexivity.
Defined.

Lemma selector_of_id_with_space_witness :
  _build_selector form_payload = Ok (Some "#f").
Proof.
  rewrite (proj1 selector_of_id_with_space form_payload eq_refl).
  reflexivity.
Defined.

Lemma spa_classification_witness :
  _is_spa_route_change (PStr "https://shop.example/checkout")
                       (init (at_url shop))
  = (Ok true, init (at_url shop)).
Proof.
  pose proof (proj2 spa_classification (init (at_url shop))
                "https://shop.example/checkout"
                (mkParseResult "https" "shop.example" "/cart" "" "" "")
                (mkParseResult "https" "shop.example" "/checkout" "" "" ""))
    as Hclass.
  specialize (Hclass ltac:(discriminate) ltac:(discriminate) eq_refl eq_refl).
  destruct Hclass as (spa & Hrun & _ & _ & Hspa & _).
  rewrite Hrun, Hspa; try reflexivity.
  left. discriminate.
Defined.

(** C2, as stated, fails on the blank page: the sentinel and
    [about:blank#blocked] share scheme, host, path and query and differ
    in the fragment only, yet the navigation is classified real, and
    the handler issues a document navigation. *)
Lemma spa_classification_counterexample :
  urlparse "about:blank" = Ok (mkParseResult "about" "" "blank" "" "" "")
  /\ urlparse "about:blank#blocked"
     = Ok (mkParseResult "about" "" "blank" "" "" "blocked")
  /\ _is_spa_route_change (PStr "about:blank#blocked")
                          (init (at_url "about:blank"))
     = (Ok false, init (at_url "about:blank"))
  /\ history (snd (_handle_state_step "browser" "navigated"
                     (url_payload "about:blank#blocked")
                     (init (at_url "about:blank"))))
     = [Call (Goto (PStr "about:blank#blocked") "domcontentloaded")].
Proof. repeat split; reflexivity. Qed.

Lemma redundant_navigation_skipped_witness :
  _handle_state_step "browser" "navigated" (url_payload shop)
                     (mkState (at_url "https://shop.example/cart/") true [])
  = (Ok tt, mkState (at_url "https://shop.example/cart/") true []).
Proof.
  apply (@redundant_navigation_skipped sim_lib sim sim_browser
           (url_payload shop) shop);
    try reflexivity. discriminate.
Defined.

(** C3, as stated, fails on a page without a URL: after a real
    navigation, with the empty current URL and the target [/] equal
    once their trailing slashes are stripped, the handler still issues
    a document navigation. *)
Lemma redundant_navigation_counterexample :
  _initial_navigation_done (mkState (at_url "") true []) = true
  /\ PyStr.rstrip "/" (page_url (at_url "")) = PyStr.rstrip "/" "/"
  /\ history (snd (_handle_state_step "browser" "navigated" (url_payload "/")
                     (mkState (at_url "") true [])))
     = [Call (Goto (PStr "/") "domcontentloaded")].
Proof. repeat split; reflexivity. Qed.



Lemma submit_fallback_chain_witness :
  first_present (submit_strategies (Some "#f")) (init (at_url shop))
  = (Ok tt,
     mkState (at_url shop) false
             [Call (Count (Locator "#f"));
              Call (Press (Locator "#f") "Enter" 2000)]).
Proof.
  unfold submit_strategies. cbn [app].
  pose proof (proj1 (proj2 (proj2 submit_fallback_chain))
                (Locator "#f") (Press (Locator "#f") "Enter" 2000)
                [(submit_buttons, Click submit_buttons 2000);
                 (focus, Press focus "Enter" 2000);
                 (first_form, Press first_form "Enter" 2000)]
                (init (at_url shop)) 1) as Hhit.
  specialize (Hhit ltac:(reflexivity) ltac:(lia)).
  rewrite Hhit. reflexivity.
Defined.

(** C6, as stated, fails when the first strategy's action fails: Enter
    on the selector's element times out and the handler raises at once
    after two calls, although the submit button is there and a click
    on it would have succeeded. *)
Lemma submit_fallback_chain_counterexample :
  _perform_submit form_payload (init (mkSim shop press_times_out))
  = (Raise (TimeoutError "Timeout 2000ms exceeded"),
     mkState (mkSim shop press_times_out) false
             [Call (Count (Locator "#f"));
              Call (Press (Locator "#f") "Enter" 2000)])
  /\ press_times_out (Count submit_buttons) = Ok 1
  /\ press_times_out (Click submit_buttons 2000) = Ok 1.
Proof. repeat split; reflexivity. Qed.

Lemma input_after_selector_timeout_run :
  _perform_input input_payload (init (mkSim shop fill_times_out))
  = (Ok tt,
     mkState (mkSim shop fill_times_out) false
             [Call (Fill (Locator "#name") (PStr "Ada") 5000);
              Call (Count focus);
              Call (Fill focus (PStr "Ada") 2000)]).
Proof.
  rewrite (proj2 (input_after_selector_timeout input_payload
                    (init (mkSim shop fill_times_out)))
             (Some "#name") "#name" "Timeout 5000ms exceeded");
    try reflexivity. discriminate.
Defined.

Lemma hover_only_moves_witness :
  _perform_pointer_move hover_payload (init (at_url shop))
  = (Ok tt, mkState (at_url shop) false [Call (MouseMove f1 f2)])
  /\ _perform_pointer_move (PDict []) (init (at_url shop))
     = (Ok tt, init (at_url shop)).
Proof.
  split.
  - rewrite (proj2 (hover_only_moves hover_payload (init (at_url shop)))
               f1 f2 eq_refl).
    reflexivity.
  - apply (proj1 (hover_only_moves (PDict []) (init (at_url shop)))).
    reflexivity.
Defined.

(** C8, as stated, fails: a pointer move that raises makes the hover
    handler raise and the replay stop before the next step; and a
    payload whose [elementRect] has a [null] width makes it raise
    [TypeError] on any browser. *)
Lemma hover_only_moves_counterexample :
  fst (_perform_pointer_move hover_payload (init (mkSim shop move_fails)))
  = Raise (PlaywrightError "Target page has been closed")
  /\ run false hover_then_load (init (mkSim shop move_fails))
     = (Ok StoppedOnError,
        mkState (mkSim shop move_fails) true [Call (MouseMove f1 f2)])
  /\ fst (_perform_pointer_move rect_null_width (init (at_url shop)))
     = Raise TypeError.
Proof. repeat split; reflexivity. Qed.

End Runs.

(* ================================================================== *)
(** * Further properties: strings and the step classifier *)
(* ================================================================== *)

Section Classifier.
Context {lib : PyLib}.

Lemma append_empty_r (s : string) : s ++ "" = s.
Proof. induction s as [|a s IH]; cbn; [reflexivity | now rewrite IH]. Qed.

Lemma append_assoc (a b c : string) : (a ++ b) ++ c = a ++ (b ++ c).
Proof. induction a as [|x a IH]; cbn; [reflexivity | now rewrite IH]. Qed.

Lemma has_char_app (c : ascii) (a b : string) :
  has_char c (a ++ b) = has_char c a || has_char c b.
Proof.
  induction a as [|x a IH]; cbn; [reflexivity|].
  rewrite IH. now rewrite orb_assoc.
Qed.

Lemma split_max_from_nonempty sep cur n s :
  PyStr.split_max_from sep cur n s <> [].
Proof.
  revert cur n. induction s as [|c s IH]; intros cur n; cbn;
    [discriminate|].
  destruct n; [discriminate|].
  destruct (Ascii.eqb c sep); [discriminate | apply IH].
Qed.

Lemma split_max_from_join sep s : forall cur n,
  join_with (String sep "") (PyStr.split_max_from sep cur n s) = cur ++ s.
Proof.
  induction s as [|c s IH]; intros cur n; cbn [PyStr.split_max_from].
  - cbn. now rewrite append_empty_r.
  - destruct n as [|n]; [reflexivity|].
    destruct (Ascii.eqb_spec c sep) as [->|Hne].
    + cbn [join_with].
      destruct (PyStr.split_max_from sep "" n s) as [|p ps] eqn:Hs.
      * now apply split_max_from_nonempty in Hs.
      * rewrite <- Hs, IH. reflexivity.
    + rewrite IH, append_assoc. reflexivity.
Qed.

(** The pieces before the last are free of the separator; so is the
    last one when fewer than [n] cuts were made. *)
Lemma split_max_from_pieces sep s : forall cur n,
  has_char sep cur = false ->
  let l := PyStr.split_max_from sep cur n s in
  Forall (fun p => has_char sep p = false) (removelast l)
  /\ ((List.length l <= n)%nat -> Forall (fun p => has_char sep p = false) l)
  /\ (List.length l <= S n)%nat.
Proof.
  induction s as [|c s IH]; intros cur n Hcur; cbn [PyStr.split_max_from].
  - cbn. repeat split; [constructor | intros; now repeat constructor | lia].
  - destruct n as [|n].
    + cbn. repeat split; [constructor | lia | lia].
    + destruct (Ascii.eqb_spec c sep) as [->|Hne].
      * destruct (IH "" n eq_refl) as (Hinit & Hall & Hlen).
        pose proof (@split_max_from_nonempty sep "" n s) as Hne.
        destruct (PyStr.split_max_from sep "" n s) as [|p ps] eqn:Hs;
          [congruence|].
        cbn zeta. repeat split.
        -- cbn [removelast]. constructor; assumption.
        -- intros Hle. constructor; [assumption|].
           apply Hall. cbn in Hle |- *. lia.
        -- cbn in Hlen |- *. lia.
      * apply IH. rewrite has_char_app, Hcur. cbn.
        destruct (Ascii.eqb_spec c sep); [contradiction | reflexivity].
Qed.

Lemma count_char_absent (c : ascii) (s : string) :
  has_char c s = false -> count_char c s = 0%nat.
Proof.
  induction s as [|x s IH]; cbn; [reflexivity|].
  intros Hx. apply orb_false_iff in Hx as [Hx Hs]. rewrite Hx.
  now apply IH.
Qed.

Lemma count_char_app (c : ascii) (u v : string) :
  count_char c (u ++ v) = (count_char c u + count_char c v)%nat.
Proof.
  induction u as [|x u IH]; cbn; [reflexivity|].
  rewrite IH. lia.
Qed.

(** X1 -- [_split_event_type] cuts at the first two colons and loses
    nothing: the category and the subject contain no colon, and the
    three parts joined by colons give back the event type, followed by
    the colons that were missing (two when it has none, one when it
    has one). *)
Theorem split_event_type_round_trip (event_type : string) :
  let '(category, subject, action) := _split_event_type (Some event_type) in
  has_char ":" category = false
  /\ has_char ":" subject = false
  /\ (category ++ ":" ++ subject ++ ":" ++ action = event_type
      \/ (action = "" /\ category ++ ":" ++ subject = event_type
          /\ has_char ":" subject = false /\ count_char ":" event_type = 1%nat)
      \/ (action = "" /\ subject = "" /\ category = event_type)).
Proof.
  unfold _split_event_type, PyStr.split_max.
  pose proof (@split_max_from_join ":" event_type "" 2%nat) as Hjoin.
  destruct (@split_max_from_pieces ":" event_type "" 2%nat eq_refl)
    as (Hinit & Hall & Hlen).
  pose proof (@split_max_from_nonempty ":" "" 2%nat event_type) as Hne.
  destruct (PyStr.split_max_from ":" "" 2 event_type) as [|a [|b [|c rest]]];
    [congruence| | |].
  - cbn in Hjoin. subst a.
    assert (Ha : Forall (fun p => has_char ":" p = false) [event_type])
      by (apply Hall; cbn; lia).
    apply Forall_inv in Ha. repeat split; auto.
  - cbn in Hjoin.
    assert (Hab : Forall (fun p => has_char ":" p = false) [a; b])
      by (apply Hall; cbn; lia).
    pose proof (Forall_inv Hab) as Ha.
    pose proof (Forall_inv (Forall_inv_tail Hab)) as Hb.
    repeat split; auto. right. left. repeat split; auto.
    rewrite <- Hjoin, count_char_app. cbn.
    rewrite (count_char_absent _ _ Ha), (count_char_absent _ _ Hb).
    reflexivity.
  - cbn in Hlen.
    assert (rest = []) by (destruct rest; [reflexivity | cbn in Hlen; lia]).
    subst rest. cbn in Hjoin, Hinit.
    pose proof (Forall_inv Hinit) as Ha.
    pose proof (Forall_inv (Forall_inv_tail Hinit)) as Hb.
    repeat split; auto.
Qed.

End Classifier.

(* ================================================================== *)
(** * Further properties: URLs compared, selectors built *)
(* ================================================================== *)

Section UrlsAndSelectors.
Context {lib : PyLib}.

Lemma rstrip_snoc (c : ascii) (s : string) :
  PyStr.rstrip c (s ++ String c "") = PyStr.rstrip c s.
Proof.
  induction s as [|a s IH]; cbn.
  - now rewrite Ascii.eqb_refl.
  - rewrite IH. reflexivity.
Qed.

Lemma rstrip_idempotent (c : ascii) (s : string) :
  PyStr.rstrip c (PyStr.rstrip c s) = PyStr.rstrip c s.
Proof.
  induction s as [|a s IH]; cbn; [reflexivity|].
  destruct (Ascii.eqb a c && PyStr.is_empty (PyStr.rstrip c s)) eqn:Hdrop;
    [reflexivity|].
  cbn. rewrite IH, Hdrop. reflexivity.
Qed.

Lemma snoc_not_empty (s : string) (c : ascii) : s ++ String c "" <> "".
Proof. destruct s; discriminate. Qed.

(** X2 -- [_urls_differ] does not see trailing slashes: one more slash
    at the end of the target or of a non-empty current URL never
    changes the answer, and a non-empty URL does not differ from
    itself.  With an empty current URL the answer is always "differ",
    whatever the target. *)
Theorem urls_differ_ignores_trailing_slash (current t : string) :
  _urls_differ current (PStr (t ++ "/")) = _urls_differ current (PStr t)
  /\ (current <> "" ->
      _urls_differ (current ++ "/") (PStr t) = _urls_differ current (PStr t))
  /\ (current <> "" -> _urls_differ current (PStr current) = Ok false)
  /\ (forall target : value, _urls_differ "" target = Ok true).
Proof.
  unfold _urls_differ. repeat split.
  - destruct (PyStr.is_empty current); [reflexivity|].
    now rewrite rstrip_snoc.
  - intros Hne. rewrite (is_empty_false Hne).
    rewrite (is_empty_false (@snoc_not_empty current "/")).
    now rewrite rstrip_snoc.
  - intros Hne. rewrite (is_empty_false Hne), String.eqb_refl. reflexivity.
Qed.

Lemma all_chars_app (p : ascii -> bool) (a b : string) :
  all_chars p (a ++ b) = all_chars p a && all_chars p b.
Proof.
  induction a as [|x a IH]; cbn; [reflexivity|].
  rewrite IH. now rewrite andb_assoc.
Qed.

Lemma escape_char_clean (ch : ascii) :
  all_chars (fun c => negb (is_line_control c)) (escape_char ch) = true.
Proof. destruct ch as [[] [] [] [] [] [] [] []]; reflexivity. Qed.

Lemma css_escape_app (a b : string) :
  _css_escape (a ++ b) = _css_escape a ++ _css_escape b.
Proof.
  induction a as [|x a IH]; cbn; [reflexivity|].
  rewrite IH. now rewrite append_assoc.
Qed.

(** X3 -- [_css_escape] works character by character (the escape of a
    concatenation is the concatenation of the escapes), leaves a string
    without any character of [CSS_ESCAPE_MAP] as it is, and never
    lets a raw tab, newline, form feed or carriage return through. *)
Theorem css_escape_character_wise :
  (forall a b : string, _css_escape (a ++ b) = _css_escape a ++ _css_escape b)
  /\ (forall s : string,
         all_chars (fun c => negb (in_escape_map c)) s = true ->
         _css_escape s = s)
  /\ (forall s : string,
         all_chars (fun c => negb (is_line_control c)) (_css_escape s) = true).
Proof.
  split; [exact css_escape_app|]. split.
  - induction s as [|x s IH]; cbn; [reflexivity|].
    intros Hsafe. apply andb_true_iff in Hsafe as [Hx Hs].
    rewrite (IH Hs). unfold escape_char. unfold in_escape_map in Hx.
    destruct (map_get (nat_of_ascii x) CSS_ESCAPE_MAP); [discriminate|].
    reflexivity.
  - induction s as [|x s IH]; cbn; [reflexivity|].
    rewrite all_chars_app, escape_char_clean, IH. reflexivity.
Qed.

Lemma dotted_cons_nonempty (cls : string) (rest : list string) (prefix : string) :
  prefix ++ dotted (cls :: rest) <> "".
Proof. destruct prefix; cbn; discriminate. Qed.

(** X4 -- What [_build_selector] can give.  A selector it returns is
    never the empty string, so the [if selector:] tests of the handlers
    never discard one.  It raises only [AttributeError], and only for
    a payload whose [id] is falsy, whose [className] is truthy and
    whose [tag] is truthy without being a string.  With [id] and
    [className] both falsy there is no selector. *)
Theorem build_selector_results (payload : value) :
  (forall sel : string,
      _build_selector payload = Ok (Some sel) ->
      sel <> "" /\ usable (Some sel) = Some sel)
  /\ (forall e : exn,
         _build_selector payload = Raise e ->
         e = AttributeError
         /\ truthy (get_if_dict payload "id") = false
         /\ truthy (get_if_dict payload "className") = true
         /\ truthy (get_if_dict payload "tag") = true
         /\ is_str (get_if_dict payload "tag") = false)
  /\ (truthy (get_if_dict payload "id") = false ->
      truthy (get_if_dict payload "className") = false ->
      _build_selector payload = Ok None).
Proof.
  assert (Hsome : forall sel : string,
             _build_selector payload = Ok (Some sel) -> sel <> "").
  { intros sel. unfold _build_selector.
    destruct (truthy (get_if_dict payload "id")).
    - intros [= <-]. discriminate.
    - destruct (truthy (get_if_dict payload "className")); [|discriminate].
      destruct (map _css_escape
                    (PyStr.split_ws (py_str (get_if_dict payload "className"))))
        as [|cls rest]; [discriminate|].
      destruct (truthy (get_if_dict payload "tag")).
      + destruct (get_if_dict payload "tag"); try discriminate.
        cbn [rbind]. intros [= <-]. apply dotted_cons_nonempty.
      + cbn [rbind]. intros [= <-]. discriminate. }
  split; [|split].
  - intros sel Hsel. split; [now apply Hsome|].
    unfold usable. rewrite (is_empty_false (Hsome sel Hsel)). reflexivity.
  - intros e. unfold _build_selector.
    destruct (truthy (get_if_dict payload "id")); [discriminate|].
    destruct (truthy (get_if_dict payload "className")); [|discriminate].
    destruct (map _css_escape _); [discriminate|].
    destruct (truthy (get_if_dict payload "tag")); [|discriminate].
    destruct (get_if_dict payload "tag"); cbn [rbind is_str];
      intros He; try discriminate He;
      injection He as <-; repeat split; reflexivity.
  - intros Hid Hcls. unfold _build_selector. rewrite Hid, Hcls. reflexivity.
Qed.

(** A payload that is not a dict offers nothing to target: no
    coordinates and no selector, without any exception. *)
Lemma non_dict_payload_has_no_target (payload : value) :
  is_dict payload = false ->
  _extract_coordinates payload = Ok None
  /\ _build_selector payload = Ok None.
Proof.
  intros Hnd. destruct payload; try discriminate Hnd; split; reflexivity.
Qed.

End UrlsAndSelectors.

(* ================================================================== *)
(** * Further properties: what a replay leaves behind *)
(* ================================================================== *)

Section FootprintFacts.
Context {lib : PyLib} {B : Type} {br : Browser B}.
Variable R : state B -> state B -> Prop.
Hypothesis R_refl : forall s, R s s.
Hypothesis R_trans : forall s1 s2 s3, R s1 s2 -> R s2 s3 -> R s1 s3.
Hypothesis R_await : forall c, respects R (await c).
Hypothesis R_sleep : forall ms, respects R (sleep ms).

Lemma respects_ret {A} (a : A) : respects R (ret a).
Proof. intros s. apply R_refl. Qed.

Lemma respects_raise {A} (e : exn) : respects R (@raise B A e).
Proof. intros s. apply R_refl. Qed.

Lemma respects_lift {A} (r : result A) : respects R (lift r).
Proof. intros s. apply R_refl. Qed.

Lemma respects_read_url : respects R read_url.
Proof. intros s. apply R_refl. Qed.

Lemma respects_read_flag : respects R read_flag.
Proof. intros s. apply R_refl. Qed.

Lemma respects_bind {A C} (m : M B A) (k : A -> M B C) :
  respects R m -> (forall a, respects R (k a)) -> respects R (bind m k).
Proof.
  intros Hm Hk s. unfold bind. specialize (Hm s).
  destruct (m s) as [[a|e] s1]; cbn in Hm |- *.
  - eapply R_trans; [exact Hm | apply Hk].
  - exact Hm.
Qed.

Lemma respects_try_except {A} (m : M B A) catches (h : exn -> M B A) :
  respects R m -> (forall e, respects R (h e)) ->
  respects R (try_except m catches h).
Proof.
  intros Hm Hh s. unfold try_except. specialize (Hm s).
  destruct (m s) as [[a|e] s1]; cbn in Hm |- *; [exact Hm|].
  destruct (catches e); [|exact Hm].
  eapply R_trans; [exact Hm | apply Hh].
Qed.

(** Goes through a handler: sequencing, exception handling, branches,
    and the primitives at the leaves. *)
Ltac respect :=
  repeat (intros;
          match goal with
          | |- respects _ (bind _ _) => apply respects_bind
          | |- respects _ (try_except _ _ _) => apply respects_try_except
          | |- respects _ (ret _) => apply respects_ret
          | |- respects _ (raise _) => apply respects_raise
          | |- respects _ (lift _) => apply respects_lift
          | |- respects _ read_url => apply respects_read_url
          | |- respects _ read_flag => apply respects_read_flag
          | |- respects _ (await _) => apply R_await
          | |- respects _ (sleep _) => apply R_sleep
          | |- respects _ (if ?b then _ else _) => destruct b
          | |- respects _ (match ?x with _ => _ end) => destruct x
          end).

Lemma respects_safe_goto url : respects R (_safe_goto url).
Proof. unfold _safe_goto. respect. Qed.

Lemma respects_safe_wait st : respects R (_safe_wait_for_load st).
Proof. unfold _safe_wait_for_load. respect. Qed.

Lemma respects_spa_navigation url : respects R (_perform_spa_navigation url).
Proof.
  unfold _perform_spa_navigation. respect. intros. apply respects_safe_goto.
Qed.

Lemma respects_is_spa url : respects R (_is_spa_route_change url).
Proof. unfold _is_spa_route_change. respect. Qed.

Lemma respects_user_action action payload :
  respects R (_handle_user_action action payload).
Proof.
  unfold _handle_user_action, _perform_pointer_click, _perform_pointer_move,
    _perform_scroll, _perform_input, _perform_keydown, _perform_submit.
  respect.
Qed.

Hypothesis R_mark : respects R mark_navigation_done.

Lemma respects_state_step subject action payload :
  respects R (_handle_state_step subject action payload).
Proof.
  unfold _handle_state_step. respect; intros;
    first [apply respects_spa_navigation | apply respects_safe_goto
          | apply respects_is_spa | apply respects_safe_wait | apply R_mark].
Qed.

Lemma respects_run_step step : respects R (_run_step step).
Proof.
  unfold _run_step. destruct (_split_event_type (event_type step)) as [[c sb] a].
  respect; intros; first [apply respects_state_step | apply respects_user_action].
Qed.

Lemma respects_run_loop human trajectory :
  respects R (run_loop human trajectory).
Proof.
  induction trajectory as [|step rest IH]; cbn [run_loop]; respect; intros;
    first [apply respects_run_step | exact IH].
Qed.

Lemma respects_run human trajectory : respects R (run human trajectory).
Proof.
  unfold run. respect; intros; first [apply R_mark | apply respects_run_loop].
Qed.

End FootprintFacts.

Section ReplayFootprint.
Context {lib : PyLib} {B : Type} {br : Browser B}.

Lemma grows_refl (s : state B) : grows s s.
Proof. exists []. now rewrite app_nil_r. Qed.

Lemma grows_trans (s1 s2 s3 : state B) : grows s1 s2 -> grows s2 s3 -> grows s1 s3.
Proof.
  intros [m1 H1] [m2 H2]. exists (m1 ++ m2)%list.
  now rewrite H2, H1, app_assoc.
Qed.

Lemma grows_await (c : call) (s : state B) : grows s (snd (await c s)).
Proof.
  unfold await. destruct (perform c (page s)) as [r b]. cbn.
  now exists [Call c].
Qed.

Lemma grows_sleep (ms : Z) (s : state B) : grows s (snd (sleep ms s)).
Proof. now exists [Sleep ms]. Qed.

Lemma flag_of_await (c : call) (s : state B) :
  _initial_navigation_done (snd (await c s)) = _initial_navigation_done s.
Proof. unfold await. destruct (perform c (page s)). reflexivity. Qed.

(** X6 -- A replay only adds to what it has done and never takes the
    flag back: after [run], and after any single [_run_step], whether
    it returned or raised, the history of browser calls and sleeps
    extends the history before, and [_initial_navigation_done], if it
    was set, is still set. *)
Theorem replay_extends_history_keeps_flag :
  (forall (step : StepModel) (s : state B),
      grows s (snd (_run_step step s))
      /\ flag_kept s (snd (_run_step step s)))
  /\ (forall (human : bool) (trajectory : list StepModel) (s : state B),
         grows s (snd (run human trajectory s))
         /\ flag_kept s (snd (run human trajectory s))).
Proof.
  set (R := fun s s' : state B => grows s s' /\ flag_kept s s').
  assert (R_refl : forall s, R s s)
    by (intros s; split; [apply grows_refl | intros H; exact H]).
  assert (R_trans : forall s1 s2 s3, R s1 s2 -> R s2 s3 -> R s1 s3).
  { intros s1 s2 s3 [G1 F1] [G2 F2]. split.
    - eapply grows_trans; eassumption.
    - intros H. apply F2, F1, H. }
  assert (R_await : forall c, respects R (await c)).
  { intros c s. split; [apply grows_await|].
    intros H. now rewrite flag_of_await. }
  assert (R_sleep : forall ms, respects R (sleep ms)).
  { intros ms s. split; [apply grows_sleep | intros H; exact H]. }
  assert (R_mark : respects R mark_navigation_done).
  { intros s. split; [|intros _; reflexivity].
    exists []. cbn. now rewrite app_nil_r. }
  split.
  - intros step s.
    exact (respects_run_step R_refl R_trans R_await R_sleep R_mark step s).
  - intros human trajectory s.
    exact (respects_run R_refl R_trans R_await R_sleep R_mark
             human trajectory s).
Qed.

(** X7 -- No user action touches the flag: whatever the action name
    and the payload, and whether the handler returns or raises,
    [_initial_navigation_done] is what it was, and the history is only
    extended. *)
Theorem user_actions_leave_the_flag
    (action : string) (payload : value) (s : state B) :
  flag_same s (snd (_handle_user_action action payload s))
  /\ grows s (snd (_handle_user_action action payload s)).
Proof.
  set (R := fun s s' : state B => flag_same s s' /\ grows s s').
  assert (R_refl : forall s, R s s)
    by (intros s0; split; [reflexivity | apply grows_refl]).
  assert (R_trans : forall s1 s2 s3, R s1 s2 -> R s2 s3 -> R s1 s3).
  { intros s1 s2 s3 [F1 G1] [F2 G2]. split.
    - unfold flag_same in *. congruence.
    - eapply grows_trans; eassumption. }
  assert (R_await : forall c, respects R (await c)).
  { intros c s0. split; [apply flag_of_await | apply grows_await]. }
  assert (R_sleep : forall ms, respects R (sleep ms)).
  { intros ms s0. split; [reflexivity | apply grows_sleep]. }
  exact (respects_user_action R_refl R_trans R_await R_sleep action payload s).
Qed.

Lemma run_loop_app (human : bool) (first_part second_part : list StepModel) :
  forall s : state B,
    run_loop human (first_part ++ second_part) s
    = match run_loop human first_part s with
      | (Ok Completed, s1) => run_loop human second_part s1
      | stopped => stopped
      end.
Proof.
  induction first_part as [|step rest IH]; intros s; [reflexivity|].
  cbn [app run_loop]. unfold_monad.
  destruct (_run_step step s) as [[[]|e] s1]; [|reflexivity].
  apply IH.
Qed.

(** X8 -- Replays compose: the loop of [run] over a trajectory cut in
    two is the loop over the first part followed, if that part
    completed, by the loop over the second part from the state it
    left; a first part that stopped on an error is the result of the
    whole, the second part untouched. *)
Theorem run_loop_composes
    (human : bool) (first_part second_part : list StepModel) (s : state B) :
  run_loop human (first_part ++ second_part) s
  = match run_loop human first_part s with
    | (Ok Completed, s1) => run_loop human second_part s1
    | stopped => stopped
    end.
Proof. apply run_loop_app. Qed.

End ReplayFootprint.

(* ================================================================== *)
(** * Further properties: the handlers one by one *)
(* ================================================================== *)

Section HandlerFacts.
Context {lib : PyLib} {B : Type} {br : Browser B}.

Lemma built_selector_is_usable (payload : value) (sel : string) :
  _build_selector payload = Ok (Some sel) -> usable (Some sel) = Some sel.
Proof.
  intros Hsel.
  assert (Hne : sel <> "").
  { revert Hsel. unfold _build_selector.
    destruct (truthy (get_if_dict payload "id")).
    - intros [= <-]. discriminate.
    - destruct (truthy (get_if_dict payload "className")); [|discriminate].
      destruct (map _css_escape
                    (PyStr.split_ws (py_str (get_if_dict payload "className"))))
        as [|cls rest]; [discriminate|].
      destruct (truthy (get_if_dict payload "tag")).
      + destruct (get_if_dict payload "tag"); try discriminate.
        cbn [rbind]. intros [= <-]. apply dotted_cons_nonempty.
      + cbn [rbind]. intros [= <-]. discriminate. }
  unfold usable. now rewrite (is_empty_false Hne).
Qed.

Lemma await_outcome (c : call) (s : state B) :
  (let (r, s1) := await c s in
   match r with
   | Ok _ => (Ok tt, s1)
   | Raise e => (Raise e, s1)
   end) = (outcome c s, after c s).
Proof. unfold outcome, after. destruct (await c s) as [[n|e] s1]; reflexivity. Qed.

(** X9 -- Click targets.  When the payload yields coordinates the
    click goes to them and the selector is not looked at: pointer move,
    a pause of 100 ms, pointer click at the same point; a move that
    raises ends the handler before any click.  Without coordinates the
    handler clicks the element of the selector (5 s) and ends as that
    click ends, whatever it raises.  Without coordinates and without
    selector it raises before any browser call. *)
Theorem click_targets (payload : value) (s : state B) :
  (forall x y : float,
      _extract_coordinates payload = Ok (Some (x, y)) ->
      _perform_pointer_click payload s
      = match await (MouseMove x y) s with
        | (Ok _, s1) =>
            (outcome (MouseClick x y) (rested 100 s1),
             after (MouseClick x y) (rested 100 s1))
        | (Raise e, s1) => (Raise e, s1)
        end)
  /\ (forall sel : string,
         _extract_coordinates payload = Ok None ->
         _build_selector payload = Ok (Some sel) ->
         _perform_pointer_click payload s
         = (outcome (Click (Locator sel) 5000) s,
            after (Click (Locator sel) 5000) s))
  /\ (_extract_coordinates payload = Ok None ->
      _build_selector payload = Ok None ->
      _perform_pointer_click payload s
      = (Raise (Exception "No coordinates or selector available for click"),
         s)).
Proof.
  split; [|split].
  - intros x y Hxy. unfold _perform_pointer_click, rested, outcome, after.
    unfold_monad. rewrite Hxy.
    destruct (await (MouseMove x y) s) as [[n|e] s1]; [|reflexivity].
    cbn [snd].
    destruct (await (MouseClick x y) _) as [[k|e] s2]; reflexivity.
  - intros sel Hnone Hsel. unfold _perform_pointer_click, outcome, after.
    unfold_monad. rewrite Hnone, Hsel, (built_selector_is_usable _ Hsel).
    destruct (await (Click (Locator sel) 5000) s) as [[n|e] s1];
      [reflexivity|].
    cbn. destruct (is_timeout e); reflexivity.
  - intros Hnone Hsel. unfold _perform_pointer_click. unfold_monad.
    rewrite Hnone, Hsel. reflexivity.
Qed.

(** X10 -- Scroll is never fatal on a dict payload: with numeric [x]
    and [y] it issues exactly one scroll script and returns whether the
    script raised or not; with anything else it returns without a
    call.  Only a payload that is not a dict makes it raise
    ([AttributeError], from [payload.get]), again without a call. *)
Theorem scroll_outcomes (payload : value) (s : state B) :
  (forall d : dict,
      payload = PDict d ->
      is_number (get d "x") && is_number (get d "y") = true ->
      _perform_scroll payload s
      = (Ok tt, after (EvaluateScrollTo (get d "x") (get d "y")) s))
  /\ (forall d : dict,
         payload = PDict d ->
         is_number (get d "x") && is_number (get d "y") = false ->
         _perform_scroll payload s = (Ok tt, s))
  /\ (is_dict payload = false ->
      _perform_scroll payload s = (Raise AttributeError, s)).
Proof.
  split; [|split].
  - intros d -> Hnum. unfold _perform_scroll, after. rewrite Hnum.
    unfold_monad.
    destruct (await (EvaluateScrollTo (get d "x") (get d "y")) s)
      as [[n|e] s1]; reflexivity.
  - intros d -> Hnum. unfold _perform_scroll. rewrite Hnum. reflexivity.
  - intros Hnd. destruct payload; try discriminate Hnd; reflexivity.
Qed.

(** X11 -- Key press with its fallback.  A missing or falsy [key]
    makes the handler return without a call.  Otherwise the key is
    pressed; if the press raises, the key string is typed instead, and
    the handler ends as the typing ends: it raises only when both the
    press and the typing raised. *)
Theorem keydown_press_then_type (payload : value) (s : state B) :
  (truthy (get_if_dict payload "key") = false ->
   _perform_keydown payload s = (Ok tt, s))
  /\ (truthy (get_if_dict payload "key") = true ->
      _perform_keydown payload s
      = match await (KeyboardPress (get_if_dict payload "key")) s with
        | (Ok _, s1) => (Ok tt, s1)
        | (Raise _, s1) =>
            (outcome (KeyboardType (get_if_dict payload "key")) s1,
             after (KeyboardType (get_if_dict payload "key")) s1)
        end).
Proof.
  split.
  - intros Hkey. unfold _perform_keydown. rewrite Hkey. reflexivity.
  - intros Hkey. unfold _perform_keydown, outcome, after. rewrite Hkey.
    unfold_monad. cbn [negb].
    destruct (await (KeyboardPress (get_if_dict payload "key")) s)
      as [[n|e] s1]; [reflexivity|].
    destruct (await (KeyboardType (get_if_dict payload "key")) s1)
      as [[k|e'] s2]; reflexivity.
Qed.

Lemma input_with_value (payload : value) (s : state B) :
  get_if_dict payload "value" <> PNone ->
  _perform_input payload s
  = bind (lift (_build_selector payload))
         (fun selector =>
            bind (match usable selector with
                  | Some sel =>
                      try_except
                        (bind (await (Fill (Locator sel)
                                           (get_if_dict payload "value") 5000))
                              (fun _ => ret true))
                        is_timeout (fun _ => ret false)
                  | None => ret false
                  end)
                 (fun filled =>
                    if filled then ret tt
                    else focused_fill (get_if_dict payload "value"))) s.
Proof.
  intros Hv. unfold _perform_input.
  assert (Hfocus : forall v (st : state B),
             bind (try_except
                     (bind (await (Count focus))
                           (fun n => if 0 <? n
                                     then bind (await (Fill focus v 2000))
                                               (fun _ => ret true)
                                     else ret false))
                     any_exception (fun _ => ret false))
                  (fun filled_focused =>
                     if filled_focused then ret tt
                     else raise (Exception "Input operation failed")) st
             = focused_fill v st).
  { intros v st. unfold focused_fill. unfold_monad.
    destruct (await (Count focus) st) as [[n|e] s1]; [|reflexivity].
    destruct (0 <? n); [|reflexivity].
    destruct (await (Fill focus v 2000) s1) as [[k|e] s2]; reflexivity. }
  assert (Hgo : forall v,
             bind (lift (_build_selector payload))
               (fun selector =>
                  bind (match usable selector with
                        | Some sel =>
                            try_except
                              (bind (await (Fill (Locator sel) v 5000))
                                    (fun _ => ret true))
                              is_timeout (fun _ => ret false)
                        | None => ret false
                        end)
                       (fun filled =>
                          if filled then ret tt
                          else
                            bind (try_except
                                    (bind (await (Count focus))
                                       (fun n =>
                                          if 0 <? n
                                          then bind (await (Fill focus v 2000))
                                                    (fun _ => ret true)
                                          else ret false))
                                    any_exception (fun _ => ret false))
                                 (fun filled_focused =>
                                    if filled_focused then ret tt
                                    else raise
                                      (Exception "Input operation failed")))) s
             = bind (lift (_build_selector payload))
                 (fun selector =>
                    bind (match usable selector with
                          | Some sel =>
                              try_except
                                (bind (await (Fill (Locator sel) v 5000))
                                      (fun _ => ret true))
                                is_timeout (fun _ => ret false)
                          | None => ret false
                          end)
                         (fun filled =>
                            if filled then ret tt else focused_fill v)) s).
  { intros v. pose proof (Hfocus v) as Hf. clear Hfocus. unfold_monad.
    destruct (_build_selector payload) as [selector|e]; [|reflexivity].
    destruct (usable selector) as [sel|].
    - destruct (await (Fill (Locator sel) v 5000) s) as [[n|e] s1];
        [reflexivity|].
      destruct (is_timeout e); [apply Hf | reflexivity].
    - apply Hf. }
  destruct (get_if_dict payload "value"); try apply Hgo. congruence.
Qed.

(** The other ways of the input handler.  With a value and a
    selector: a selector fill that returns ends the handler with that
    single call; a selector fill that raises anything but a timeout
    ends the handler with that exception, the focused element untried.
    With a value and no selector the handler is the focused-element
    strategy alone. *)
Lemma input_selector_outcomes (payload : value) (s : state B) :
  (forall (sel : string) (n : Z),
      get_if_dict payload "value" <> PNone ->
      _build_selector payload = Ok (Some sel) ->
      fst (await (Fill (Locator sel) (get_if_dict payload "value") 5000) s)
      = Ok n ->
      _perform_input payload s
      = (Ok tt,
         after (Fill (Locator sel) (get_if_dict payload "value") 5000) s))
  /\ (forall (sel : string) (e : exn),
         get_if_dict payload "value" <> PNone ->
         _build_selector payload = Ok (Some sel) ->
         fst (await (Fill (Locator sel) (get_if_dict payload "value") 5000) s)
         = Raise e ->
         is_timeout e = false ->
         _perform_input payload s
         = (Raise e,
            after (Fill (Locator sel) (get_if_dict payload "value") 5000) s))
  /\ (get_if_dict payload "value" <> PNone ->
      _build_selector payload = Ok None ->
      _perform_input payload s
      = focused_fill (get_if_dict payload "value") s).
Proof.
  split; [|split].
  - intros sel n Hv Hsel Hfill. rewrite (@input_with_value payload s Hv).
    unfold after. unfold_monad.
    rewrite Hsel, (built_selector_is_usable _ Hsel).
    destruct (await (Fill (Locator sel) (get_if_dict payload "value") 5000) s)
      as [r s1]. cbn in Hfill. subst r. reflexivity.
  - intros sel e Hv Hsel Hfill Hnt. rewrite (@input_with_value payload s Hv).
    unfold after. unfold_monad.
    rewrite Hsel, (built_selector_is_usable _ Hsel).
    destruct (await (Fill (Locator sel) (get_if_dict payload "value") 5000) s)
      as [r s1]. cbn in Hfill. subst r. rewrite Hnt. reflexivity.
  - intros Hv Hsel. rewrite (@input_with_value payload s Hv).
    unfold_monad. rewrite Hsel. reflexivity.
Qed.

End HandlerFacts.

(* ================================================================== *)
(** * Further properties: state steps and dispatch *)
(* ================================================================== *)

Section StateStepFacts.
Context {lib : PyLib} {B : Type} {br : Browser B}.
Local Open Scope replay_scope.

Lemma _safe_goto_is_after (url : value) (s : state B) :
  _safe_goto url s = (Ok tt, after (Goto url "domcontentloaded") s).
Proof.
  unfold _safe_goto, after. unfold_monad.
  destruct (await (Goto url "domcontentloaded") s) as [[n|e] s1]; reflexivity.
Qed.

Lemma _safe_wait_is_after (st : string) (s : state B) :
  _safe_wait_for_load st s = (Ok tt, after (WaitForLoadState st 15000) s).
Proof.
  unfold _safe_wait_for_load, after. unfold_monad.
  destruct (await (WaitForLoadState st 15000) s) as [[n|e] s1]; reflexivity.
Qed.

Lemma navigation_returns (url : value) (s : state B) :
  exists s',
    (spa <- _is_spa_route_change url ;;
     (if spa then _perform_spa_navigation url else _safe_goto url) ;;;
     mark_navigation_done) s = (Ok tt, s')
    /\ _initial_navigation_done s' = true.
Proof.
  unfold_monad.
  destruct (_is_spa_route_change_reads_only url s) as (spa & ->).
  destruct spa.
  - destruct (_perform_spa_navigation_returns url s) as (s2 & -> & _).
    eexists. split; reflexivity.
  - destruct (_safe_goto_returns url s) as (b & ->).
    eexists. split; reflexivity.
Qed.

(** X13 -- State steps are never fatal on a well-formed payload: for
    every subject and action, when the payload's [url] is a string or
    is missing or falsy, [_handle_state_step] returns; failures of the
    history push, of the document navigation and of the load wait are
    all absorbed. *)
Theorem state_steps_never_fatal
    (subject action : string) (payload : value) (s : state B) :
  is_str (get_if_dict payload "url") = true
  \/ truthy (get_if_dict payload "url") = false ->
  exists s', _handle_state_step subject action payload s = (Ok tt, s').
Proof.
  intros Hurl. unfold _handle_state_step.
  destruct (String.eqb subject "browser" && String.eqb action "navigated").
  - destruct (negb (truthy (get_if_dict payload "url"))
              || eq_str (get_if_dict payload "url") about_blank) eqn:Hskip;
      [eexists; reflexivity|].
    apply orb_false_iff in Hskip as [Htruthy _].
    apply negb_false_iff in Htruthy.
    destruct Hurl as [Hstr | Hfalsy]; [|congruence].
    destruct (get_if_dict payload "url") as [| | | |t| |] eqn:Eu;
      try discriminate Hstr.
    pose proof (navigation_returns (PStr t)) as Hnav.
    unfold_monad. unfold _urls_differ.
    destruct (_initial_navigation_done s); cbn [negb].
    + destruct (PyStr.is_empty (page_url (page s))).
      * destruct (Hnav s) as (s' & -> & _). eexists; reflexivity.
      * destruct (negb (String.eqb (PyStr.rstrip "/" (page_url (page s)))
                                   (PyStr.rstrip "/" t))).
        -- destruct (Hnav s) as (s' & -> & _). eexists; reflexivity.
        -- eexists; reflexivity.
    + destruct (Hnav s) as (s' & -> & _). eexists; reflexivity.
  - destruct (String.eqb subject "page"); [|eexists; reflexivity].
    destruct (String.eqb action "domcontentloaded"
              || String.eqb action "domcontentload").
    + rewrite _safe_wait_is_after. eexists; reflexivity.
    + destruct (String.eqb action "loaded" || String.eqb action "load").
      * rewrite _safe_wait_is_after. eexists; reflexivity.
      * eexists; reflexivity.
Qed.

(** X14 -- A navigated step whose [url] is truthy but not a string.
    Once a navigation has been done and the page shows a URL, comparing
    the URLs raises [AttributeError] before any browser call, which
    stops the replay.  On a fresh executor, or on a page without URL,
    the comparison is not made: the step is treated as a real
    navigation, the handler returns and the flag is set. *)
Theorem navigated_with_non_string_url (payload : value) (s : state B) :
  truthy (get_if_dict payload "url") = true ->
  is_str (get_if_dict payload "url") = false ->
  (_initial_navigation_done s = true -> page_url (page s) <> "" ->
   _handle_state_step "browser" "navigated" payload s
   = (Raise AttributeError, s))
  /\ (_initial_navigation_done s = false \/ page_url (page s) = "" ->
      _handle_state_step "browser" "navigated" payload s
      = (Ok tt,
         marked (after (Goto (get_if_dict payload "url") "domcontentloaded")
                       s))).
Proof.
  intros Htruthy Hns.
  assert (Hblank : eq_str (get_if_dict payload "url") about_blank = false)
    by (destruct (get_if_dict payload "url"); try reflexivity; discriminate).
  assert (Hreal : _is_spa_route_change (get_if_dict payload "url") s
                  = (Ok false, s)).
  { unfold _is_spa_route_change. unfold_monad.
    destruct (PyStr.is_empty (page_url (page s))
              || String.eqb (page_url (page s)) about_blank); [reflexivity|].
    unfold spa_decision.
    destruct (urlparse (page_url (page s))); cbn [rbind]; [|reflexivity].
    destruct (get_if_dict payload "url"); try reflexivity; discriminate. }
  split.
  - intros Hdone Hne. unfold _handle_state_step.
    cbn [String.eqb Ascii.eqb Bool.eqb andb].
    rewrite Htruthy, Hblank. cbn [negb orb]. unfold_monad.
    rewrite Hdone. cbn [negb]. unfold _urls_differ.
    rewrite (is_empty_false Hne).
    destruct (get_if_dict payload "url"); try reflexivity; discriminate.
  - intros Hfresh. unfold _handle_state_step, marked.
    cbn [String.eqb Ascii.eqb Bool.eqb andb].
    rewrite Htruthy, Hblank. cbn [negb orb]. unfold_monad.
    destruct (_initial_navigation_done s) eqn:Hdone; cbn [negb].
    + destruct Hfresh as [Hf | Hempty]; [discriminate|].
      unfold _urls_differ. rewrite Hempty. cbn [PyStr.is_empty].
      rewrite Hreal, _safe_goto_is_after. reflexivity.
    + rewrite Hreal, _safe_goto_is_after. reflexivity.
Qed.

(** X15 -- Load waits.  A [state:page] step named [domcontentloaded]
    or [domcontentload] waits for the DOM-content-loaded milestone, one
    named [loaded] or [load] for the load milestone, each by exactly
    one wait capped at 15 s whose failure is absorbed; any other
    [state:page] action, any subject other than [browser] and
    [page], and any [state:browser] action other than [navigated]
    (a recorded [tab_opened], say) is a no-op. *)
Theorem load_wait_steps (action : string) (payload : value) (s : state B) :
  (In action dom_ready_actions ->
   _handle_state_step "page" action payload s
   = (Ok tt, after (WaitForLoadState "domcontentloaded" 15000) s))
  /\ (In action load_actions ->
      _handle_state_step "page" action payload s
      = (Ok tt, after (WaitForLoadState "load" 15000) s))
  /\ (~ In action dom_ready_actions -> ~ In action load_actions ->
      _handle_state_step "page" action payload s = (Ok tt, s))
  /\ (forall subject : string,
         subject <> "browser" -> subject <> "page" ->
         _handle_state_step subject action payload s = (Ok tt, s))
  /\ (action <> "navigated" ->
      _handle_state_step "browser" action payload s = (Ok tt, s)).
Proof.
  unfold dom_ready_actions, load_actions. repeat split.
  - intros [<- | [<- | []]]; unfold _handle_state_step; cbn;
      apply _safe_wait_is_after.
  - intros [<- | [<- | []]]; unfold _handle_state_step; cbn;
      apply _safe_wait_is_after.
  - intros Hd Hl. unfold _handle_state_step.
    cbn [String.eqb Ascii.eqb Bool.eqb andb].
    destruct (String.eqb_spec action "domcontentloaded") as [->|_];
      [exfalso; apply Hd; cbn; auto|].
    destruct (String.eqb_spec action "domcontentload") as [->|_];
      [exfalso; apply Hd; cbn; auto|].
    destruct (String.eqb_spec action "loaded") as [->|_];
      [exfalso; apply Hl; cbn; auto|].
    destruct (String.eqb_spec action "load") as [->|_];
      [exfalso; apply Hl; cbn; auto|].
    reflexivity.
  - intros subject Hb Hp. unfold _handle_state_step.
    apply String.eqb_neq in Hb, Hp. rewrite Hb, Hp. reflexivity.
  - intros Hn. unfold _handle_state_step.
    apply String.eqb_neq in Hn. rewrite Hn. reflexivity.
Qed.

(** X16 -- Unrecognised steps are skipped.  A step whose category is
    neither [state] nor [action], an [action] step whose subject is not
    [user], and a [user] action outside click, hover, scroll, input,
    keydown and submit all return at once: no browser call, no sleep,
    no change of the executor, whatever the payload. *)
Theorem unrecognised_steps_are_skipped (step : StepModel) (s : state B) :
  let '(category, subject, action) := _split_event_type (event_type step) in
  category <> "state" ->
  category <> "action" \/ subject <> "user" \/ ~ In action user_actions ->
  _run_step step s = (Ok tt, s).
Proof.
  unfold _run_step.
  destruct (_split_event_type (event_type step)) as [[category subject] action].
  intros Hstate Hother. apply String.eqb_neq in Hstate. rewrite Hstate.
  destruct (String.eqb_spec category "action") as [Hc|Hc]; [|reflexivity].
  destruct (String.eqb_spec subject "user") as [Hs|Hs]; [|reflexivity].
  cbn [andb].
  destruct Hother as [Hno | [Hno | Ha]]; [contradiction | contradiction |].
  { unfold _handle_user_action, user_actions in *.
    destruct (String.eqb_spec action "click") as [->|_];
      [exfalso; apply Ha; cbn; auto|].
    destruct (String.eqb_spec action "hover") as [->|_];
      [exfalso; apply Ha; cbn; auto|].
    destruct (String.eqb_spec action "scroll") as [->|_];
      [exfalso; apply Ha; cbn; auto|].
    destruct (String.eqb_spec action "input") as [->|_];
      [exfalso; apply Ha; cbn; auto 7|].
    destruct (String.eqb_spec action "keydown") as [->|_];
      [exfalso; apply Ha; cbn; auto 7|].
    destruct (String.eqb_spec action "submit") as [->|_];
      [exfalso; apply Ha; cbn; auto 8|].
    reflexivity. }
Qed.

(** X17 -- URLs that cannot be parsed are navigated for real: when
    [urlparse] raises on the current URL or on the target, or the
    target is not a string, [_is_spa_route_change] answers [False]
    instead of raising and changes nothing. *)
Theorem unparsable_urls_are_real_navigations
    (target_url : value) (s : state B) (e : exn) :
  urlparse (page_url (page s)) = Raise e
  \/ urlparse_value target_url = Raise e ->
  _is_spa_route_change target_url s = (Ok false, s).
Proof.
  intros Hfail. unfold _is_spa_route_change. unfold_monad.
  destruct (PyStr.is_empty (page_url (page s))
            || String.eqb (page_url (page s)) about_blank); [reflexivity|].
  unfold spa_decision.
  destruct Hfail as [-> | Ht]; [reflexivity|].
  destruct (urlparse (page_url (page s))); cbn [rbind]; [|reflexivity].
  rewrite Ht. reflexivity.
Qed.

(** X18 -- SPA navigation never raises and always ends in one of two
    ways: the history push returned and is followed by a 300 ms sleep;
    or it raised and is followed by one document navigation to the
    same URL, whose own failure is absorbed. *)
Theorem spa_navigation_falls_back (url : value) (s : state B) :
  _perform_spa_navigation url s
  = match await (EvaluatePushState url) s with
    | (Ok _, s1) => (Ok tt, rested 300 s1)
    | (Raise _, s1) => (Ok tt, after (Goto url "domcontentloaded") s1)
    end.
Proof.
  unfold _perform_spa_navigation, rested. unfold_monad.
  destruct (await (EvaluatePushState url) s) as [[n|e] s1]; [reflexivity|].
  apply _safe_goto_is_after.
Qed.

(** X19 -- The first navigation of a fresh executor on a blank page is
    always a document navigation: for a [url] that is a non-empty
    string other than the sentinel, the handler issues exactly one
    [goto] to it (no history push), absorbs its failure, and sets the
    flag. *)
Theorem first_navigation_is_real (payload : value) (t : string) (s : state B) :
  get_if_dict payload "url" = PStr t ->
  t <> "" -> t <> about_blank ->
  _initial_navigation_done s = false ->
  page_url (page s) = "" \/ page_url (page s) = about_blank ->
  _handle_state_step "browser" "navigated" payload s
  = (Ok tt, marked (after (Goto (PStr t) "domcontentloaded") s)).
Proof.
  intros Hurl Hne Hnb Hfresh Hblank.
  unfold _handle_state_step, marked.
  cbn [String.eqb Ascii.eqb Bool.eqb andb].
  rewrite Hurl. cbn [truthy eq_str]. rewrite (is_empty_false Hne).
  apply String.eqb_neq in Hnb. rewrite Hnb. cbn [negb orb].
  unfold_monad. rewrite Hfresh. cbn [negb].
  rewrite (blank_page_is_real_navigation (PStr t) s Hblank).
  rewrite _safe_goto_is_after. reflexivity.
Qed.

End StateStepFacts.

(* ================================================================== *)
(** * Further properties: the recording browser *)
(* ================================================================== *)

Ltac unfold_act :=
  unfold sbind, sret, sraise, stry, print, frames_of, set_binding_registered,
    set_page_script_registered, binding_registered, page_script_registered
    in *.

Section RecorderFacts.
Context {lib : PyLib} {H : Type} {ho : Host H}.

(** X20 -- [setup_dom_listeners] registers once.  After a call that
    returned, both registration flags are set, and a further call
    returns without any request to the context: it only prints its two
    lines. *)
Theorem setup_dom_listeners_idempotent (s s1 : stealth H) :
  setup_dom_listeners s = (Ok tt, s1) ->
  _binding_registered s1 = true
  /\ _page_script_registered s1 = true
  /\ setup_dom_listeners s1
     = (Ok tt,
        mkStealth (host s1) true true
                  (trace s1 ++ [Printed SettingUpListeners;
                                Printed ListenersSetupComplete])).
Proof.
  unfold setup_dom_listeners, request. unfold_act. cbn.
  destruct (_binding_registered s) eqn:Hb;
    destruct (_page_script_registered s) eqn:Hp; cbn;
    repeat match goal with
           | |- context [host_perform ?c ?h] =>
               destruct (host_perform c h) as [[[]|?] ?]; cbn
           end;
    intros Heq; try discriminate Heq; injection Heq as <-; cbn;
    rewrite <- ?app_assoc; cbn; repeat split; reflexivity.
Qed.

(** X21 -- A registration that fails leaves its flag unset, so that a
    later call tries it again.  When the context binding raises, the
    exception is the method's, [_binding_registered] stays false and
    the init script is not even attempted.  When the binding is
    already registered and adding the init script raises,
    [_page_script_registered] stays false while [_binding_registered]
    stays true. *)
Theorem setup_failure_leaves_flag_unset (s : stealth H) (e : exn) :
  (_binding_registered s = false ->
   fst (host_perform (ContextExposeBinding "onPageEvent") (host s)) = Raise e ->
   setup_dom_listeners s
   = (Raise e,
      mkStealth (snd (host_perform (ContextExposeBinding "onPageEvent")
                                   (host s)))
                false (_page_script_registered s)
                (trace s ++ [Printed SettingUpListeners;
                             Did (ContextExposeBinding "onPageEvent")])))
  /\ (_binding_registered s = true ->
      _page_script_registered s = false ->
      fst (host_perform (ContextAddInitScript PAGE_EVENT_LISTENER_SCRIPT)
                        (host s)) = Raise e ->
      setup_dom_listeners s
      = (Raise e,
         mkStealth (snd (host_perform
                           (ContextAddInitScript PAGE_EVENT_LISTENER_SCRIPT)
                           (host s)))
                   true false
                   (trace s ++ [Printed SettingUpListeners;
                                Did (ContextAddInitScript
                                       PAGE_EVENT_LISTENER_SCRIPT)]))).
Proof.
  split.
  - intros Hb Hfail. unfold setup_dom_listeners, request. unfold_act. cbn.
    rewrite Hb. cbn.
    destruct (host_perform (ContextExposeBinding "onPageEvent") (host s))
      as [r h]. cbn in Hfail |- *. subst r.
    rewrite <- app_assoc. reflexivity.
  - intros Hb Hp Hfail. unfold setup_dom_listeners, request. unfold_act. cbn.
    rewrite Hb, Hp. cbn.
    destruct (host_perform (ContextAddInitScript PAGE_EVENT_LISTENER_SCRIPT)
                           (host s)) as [r h].
    cbn in Hfail |- *. subst r.
    rewrite <- app_assoc. reflexivity.
Qed.

End RecorderFacts.

Section PageScriptFacts.
Context {lib : PyLib} {H : Type} {ho : Host H}.

Lemma install_on_frames_visits_all (pg : nat) (frames : list nat) :
  forall s : stealth H,
  exists h,
    install_on_frames pg frames s
    = (Ok tt,
       mkStealth h (_binding_registered s) (_page_script_registered s)
                 (trace s ++ frame_installs pg frames)).
Proof.
  induction frames as [|frame rest IH]; intros s.
  - exists (host s). cbn. rewrite app_nil_r. destruct s; reflexivity.
  - cbn [install_on_frames]. unfold request. unfold_act.
    destruct (host_perform (FrameEvaluate pg frame PAGE_EVENT_LISTENER_SCRIPT)
                           (host s)) as [[[]|e] h1]; cbn;
      match goal with
      | |- context [install_on_frames pg rest ?st] =>
          destruct (IH st) as (h & ->)
      end;
      exists h; cbn; rewrite <- app_assoc; reflexivity.
Qed.

(** X22 -- The listener script reaches every frame.  When the page
    takes the script, every frame of the page is then asked to take
    it, once each and in the order of [page.frames], whether or not
    the page-level binding and the earlier frames refused; the method
    returns and the registration flags are untouched. *)
Theorem listener_script_reaches_every_frame
    (p : nat) (frames : list nat) (s : stealth H) :
  fst (request (PageEvaluate p PAGE_EVENT_LISTENER_SCRIPT)
               (after_request (PageExposeBinding p "onPageEvent") s))
  = Ok tt ->
  page_frames
    (host (after_request (PageEvaluate p PAGE_EVENT_LISTENER_SCRIPT)
                         (after_request (PageExposeBinding p "onPageEvent") s)))
    p = Ok frames ->
  exists h,
    _initialize_page_event_script (Some p) s
    = (Ok tt,
       mkStealth h (_binding_registered s) (_page_script_registered s)
                 (trace s
                  ++ [Did (PageExposeBinding p "onPageEvent");
                      Did (PageEvaluate p PAGE_EVENT_LISTENER_SCRIPT)]
                  ++ frame_installs p frames)).
Proof.
  unfold _initialize_page_event_script, after_request, request.
  unfold_act.
  destruct (host_perform (PageExposeBinding p "onPageEvent") (host s))
    as [[[]|e] h1]; cbn;
    (destruct (host_perform (PageEvaluate p PAGE_EVENT_LISTENER_SCRIPT) h1)
      as [[[]|e'] h2]; cbn; intros Hev Hfr; [|discriminate Hev];
     rewrite Hfr;
     match goal with
     | |- context [install_on_frames p frames ?st] =>
         destruct (install_on_frames_visits_all p frames st) as (h & ->)
     end;
     exists h; cbn; rewrite <- !app_assoc; reflexivity).
Qed.

(** X23 -- [_initialize_page_event_script] never raises, whatever the
    page and the frames answer; without a page it does nothing; and
    when the page refuses the script no frame is touched. *)
Theorem initialize_page_event_script_never_raises :
  (forall (pg : option nat) (s : stealth H),
      exists s', _initialize_page_event_script pg s = (Ok tt, s'))
  /\ (forall s : stealth H, _initialize_page_event_script None s = (Ok tt, s))
  /\ (forall (p : nat) (s : stealth H) (e : exn),
         fst (request (PageEvaluate p PAGE_EVENT_LISTENER_SCRIPT)
                      (after_request (PageExposeBinding p "onPageEvent") s))
         = Raise e ->
         _initialize_page_event_script (Some p) s
         = (Ok tt,
            after_request (PageEvaluate p PAGE_EVENT_LISTENER_SCRIPT)
                          (after_request (PageExposeBinding p "onPageEvent")
                                         s))).
Proof.
  split; [|split].
  - intros [p|] s; [|eexists; reflexivity].
    unfold _initialize_page_event_script, request. unfold_act.
    destruct (host_perform (PageExposeBinding p "onPageEvent") (host s))
      as [[[]|e] h1]; cbn;
      (destruct (host_perform (PageEvaluate p PAGE_EVENT_LISTENER_SCRIPT) h1)
        as [[[]|e'] h2]; cbn; [|eexists; reflexivity];
       destruct (page_frames h2 p) as [frames|e'']; [|eexists; reflexivity];
       match goal with
       | |- context [install_on_frames p frames ?st] =>
           destruct (install_on_frames_visits_all p frames st) as (h & ->)
       end;
       eexists; reflexivity).
  - reflexivity.
  - intros p s e.
    unfold _initialize_page_event_script, after_request, request. unfold_act.
    destruct (host_perform (PageExposeBinding p "onPageEvent") (host s))
      as [[[]|e0] h1]; cbn;
      (destruct (host_perform (PageEvaluate p PAGE_EVENT_LISTENER_SCRIPT) h1)
        as [[[]|e'] h2]; cbn; intros Hev; [discriminate Hev | reflexivity]).
Qed.

(** X24 -- [handle_page_event] never raises.  For a dict it hands the
    event to the recorder exactly once, with the event's
    [event_context] (or "unknown") as prefix, and absorbs the
    recorder's failure; for anything that is not a dict it records
    nothing. *)
Theorem handle_page_event_never_raises
    (event_info : value) (pg : option nat) (s : stealth H) :
  (forall d : dict,
      event_info = PDict d ->
      handle_page_event event_info pg s
      = (Ok tt,
         after_request
           (RecordStep event_info
                       (py_str (get_default d "event_context" (PStr "unknown")))
                       pg) s))
  /\ (is_dict event_info = false ->
      handle_page_event event_info pg s = (Ok tt, s)).
Proof.
  split.
  - intros d ->. unfold handle_page_event, after_request, request. unfold_act.
    destruct (host_perform _ (host s)) as [[[]|e] h1]; reflexivity.
  - intros Hnd. destruct event_info; try discriminate Hnd; reflexivity.
Qed.


End PageScriptFacts.

(* ================================================================== *)
(** * Further properties: launching *)
(* ================================================================== *)

Section LaunchFacts.
Import Launch.

Lemma prefix_of_longer (a b : string) :
  forall text, String.prefix (a ++ b) text = true -> String.prefix a text = true.
Proof.
  induction a as [|x a IH]; intros text.
  - intros _. destruct text; reflexivity.
  - destruct text as [|y text]; cbn; [discriminate|].
    destruct (ascii_dec x y); [apply IH | discriminate].
Qed.

Lemma occurs_of_longer (a b : string) :
  forall text, occurs (a ++ b) text = true -> occurs a text = true.
Proof.
  induction text as [|y text IH]; cbn [occurs]; intros Hocc.
  - apply orb_true_iff in Hocc as [Hp | Hf]; [|discriminate].
    apply prefix_of_longer in Hp. now rewrite Hp.
  - apply orb_true_iff in Hocc as [Hp | Hrest].
    + apply prefix_of_longer in Hp. now rewrite Hp.
    + rewrite (IH Hrest). apply orb_true_r.
Qed.

(** X26 -- The console filter.  A console message is printed exactly
    when it contains neither "Failed to execute 'postMessage'" nor
    "Blocked script execution in": the handler's first test, for the
    longer "Blocked script execution in 'about:blank'", never decides
    anything the third does not. *)
Theorem console_filter (text : string) :
  console_shown text
  = negb (occurs failed_post_message text)
    && negb (occurs blocked_anywhere text).
Proof.
  unfold console_shown.
  destruct (occurs blocked_in_blank text) eqn:Hblank.
  - assert (Hany : occurs blocked_anywhere text = true)
      by (apply (occurs_of_longer blocked_anywhere " 'about:blank'");
          exact Hblank).
    rewrite Hany. now rewrite andb_false_r.
  - destruct (occurs failed_post_message text); [reflexivity|].
    destruct (occurs blocked_anywhere text); reflexivity.
Qed.

Lemma lstrip_ws_no_lead (s : string) : starts_with_space (lstrip_ws s) = false.
Proof.
  induction s as [|a s IH]; cbn; [reflexivity|].
  destruct (PyStr.isspace a) eqn:Ha; [exact IH | cbn; exact Ha].
Qed.

Lemma rstrip_ws_no_trail (s : string) : ends_with_space (rstrip_ws s) = false.
Proof.
  induction s as [|a s IH]; cbn [rstrip_ws]; [reflexivity|].
  destruct (rstrip_ws s) as [|b r] eqn:Hr; cbn [PyStr.is_empty].
  - rewrite andb_true_r. destruct (PyStr.isspace a) eqn:Ha; cbn;
      [reflexivity | exact Ha].
  - rewrite andb_false_r. cbn [ends_with_space]. exact IH.
Qed.

Lemma lstrip_ws_keeps_end (s : string) :
  ends_with_space s = false -> ends_with_space (lstrip_ws s) = false.
Proof.
  induction s as [|a s IH]; cbn [lstrip_ws]; [reflexivity|].
  intros Hend. destruct (PyStr.isspace a); [|exact Hend].
  destruct s as [|b s]; [reflexivity|]. apply IH. exact Hend.
Qed.

Lemma rstrip_ws_of_spaces (s : string) :
  all_chars PyStr.isspace s = true -> rstrip_ws s = "".
Proof.
  induction s as [|a s IH]; cbn; [reflexivity|].
  intros Hall. apply andb_true_iff in Hall as [Ha Hs].
  rewrite (IH Hs), Ha. reflexivity.
Qed.

Lemma rstrip_ws_fixed (s : string) :
  ends_with_space s = false -> rstrip_ws s = s.
Proof.
  induction s as [|a s IH]; cbn [rstrip_ws]; [reflexivity|].
  intros Hend. destruct s as [|b s].
  - cbn in Hend |- *. rewrite Hend. reflexivity.
  - rewrite (IH Hend). cbn [PyStr.is_empty]. now rewrite andb_false_r.
Qed.

Lemma lstrip_ws_fixed (s : string) :
  starts_with_space s = false -> lstrip_ws s = s.
Proof.
  destruct s as [|a s]; cbn; [reflexivity|]. intros ->. reflexivity.
Qed.

(** X27 -- The browser channel of [launch_browser].  Without the
    variable the channel is "chrome".  A channel that is chosen is
    never empty and has no white space at either end, and choosing
    again from it gives the same channel.  A variable that is empty or
    all white space gives no channel at all (not "chrome"). *)
Theorem preferred_channel_is_stripped :
  preferred_channel None = Some "chrome"
  /\ (forall (env : option string) (channel : string),
         preferred_channel env = Some channel ->
         channel <> ""
         /\ starts_with_space channel = false
         /\ ends_with_space channel = false
         /\ preferred_channel (Some channel) = Some channel)
  /\ (forall s : string,
         all_chars PyStr.isspace s = true ->
         preferred_channel (Some s) = None).
Proof.
  split; [reflexivity|]. split.
  - intros env channel. unfold preferred_channel.
    set (raw := match env with Some s => s | None => "chrome" end).
    destruct (PyStr.is_empty (strip raw)) eqn:Hempty; [discriminate|].
    intros [= <-].
    assert (Hlead : starts_with_space (strip raw) = false)
      by apply lstrip_ws_no_lead.
    assert (Hend : ends_with_space (strip raw) = false)
      by (apply lstrip_ws_keeps_end, rstrip_ws_no_trail).
    repeat split; try assumption.
    + intros Heq. rewrite Heq in Hempty. discriminate.
    + assert (Hfix : strip (strip raw) = strip raw).
      { unfold strip at 1. rewrite (rstrip_ws_fixed _ Hend).
        now apply lstrip_ws_fixed. }
      rewrite Hfix, Hempty. reflexivity.
  - intros s Hall. unfold preferred_channel, strip.
    rewrite (rstrip_ws_of_spaces _ Hall). reflexivity.
Qed.

End LaunchFacts.

(* ================================================================== *)
(** * Concrete runs for the further properties *)
(* ================================================================== *)

Section MoreRuns.
Import Sim Examples MoreExamples SimHost Launch.

Lemma urls_differ_ignores_trailing_slash_witness :
  shop <> "" /\ _urls_differ (shop ++ "/") (PStr shop) = Ok false.
Proof.
  split; [discriminate|].
  rewrite (proj1 (proj2 (urls_differ_ignores_trailing_slash shop shop)));
    [|discriminate].
  apply (proj1 (proj2 (proj2 (urls_differ_ignores_trailing_slash shop shop)))).
  discriminate.
Defined.

Lemma css_escape_character_wise_witness :
  all_chars (fun c => negb (in_escape_map c)) "submit-btn" = true
  /\ _css_escape "submit-btn" = "submit-btn".
Proof.
  split; [reflexivity|].
  apply (proj1 (proj2 css_escape_character_wise)). reflexivity.
Defined.

Lemma build_selector_results_witness :
  (_build_selector input_payload = Ok (Some "#name")
   /\ "#name" <> "" /\ usable (Some "#name") = Some "#name")
  /\ (_build_selector numeric_tag_payload = Raise AttributeError
      /\ truthy (get_if_dict numeric_tag_payload "tag") = true
      /\ is_str (get_if_dict numeric_tag_payload "tag") = false).
Proof.
  split.
  - split; [reflexivity|].
    apply (proj1 (build_selector_results input_payload)). reflexivity.
  - split; [reflexivity|].
    pose proof (proj1 (proj2 (build_selector_results numeric_tag_payload))
                  AttributeError eq_refl) as (_ & _ & _ & Htag & Hstr).
    split; assumption.
Defined.

Lemma click_targets_witness :
  _perform_pointer_click hover_payload (init (at_url shop))
  = (Ok tt,
     mkState (at_url shop) false
             [Call (MouseMove f1 f2); Sleep 100; Call (MouseClick f1 f2)])
  /\ _perform_pointer_click form_payload (init (at_url shop))
     = (Ok tt, mkState (at_url shop) false [Call (Click (Locator "#f") 5000)])
  /\ _perform_pointer_click (PDict []) (init (at_url shop))
     = (Raise (Exception "No coordinates or selector available for click"),
        init (at_url shop)).
Proof.
  split; [|split].
  - rewrite (proj1 (click_targets hover_payload (init (at_url shop)))
               f1 f2 eq_refl).
    reflexivity.
  - rewrite (proj1 (proj2 (click_targets form_payload (init (at_url shop))))
               "#f" eq_refl eq_refl).
    reflexivity.
  - apply (proj2 (proj2 (click_targets (PDict []) (init (at_url shop)))));
      reflexivity.
Defined.

Lemma scroll_outcomes_witness :
  _perform_scroll scroll_payload (init (mkSim shop all_fail))
  = (Ok tt,
     mkState (mkSim shop all_fail) false
             [Call (EvaluateScrollTo (PInt 0) (PInt 250))])
  /\ _perform_scroll PNone (init (at_url shop))
     = (Raise AttributeError, init (at_url shop)).
Proof.
  split.
  - rewrite (proj1 (scroll_outcomes scroll_payload
                      (init (mkSim shop all_fail)))
               [("x", PInt 0); ("y", PInt 250)] eq_refl eq_refl).
    reflexivity.
  - apply (proj2 (proj2 (scroll_outcomes PNone (init (at_url shop))))).
    reflexivity.
Defined.

Lemma keydown_press_then_type_witness :
  _perform_keydown key_payload (init (mkSim shop press_fails))
  = (Ok tt,
     mkState (mkSim shop press_fails) false
             [Call (KeyboardPress (PStr "Enter"));
              Call (KeyboardType (PStr "Enter"))])
  /\ _perform_keydown (PDict []) (init (at_url shop))
     = (Ok tt, init (at_url shop)).
Proof.
  split.
  - rewrite (proj2 (keydown_press_then_type key_payload
                      (init (mkSim shop press_fails))) eq_refl).
    reflexivity.
  - apply (proj1 (keydown_press_then_type (PDict []) (init (at_url shop)))).
    reflexivity.
Defined.

Lemma input_selector_outcomes_run :
  _perform_input input_payload (init (at_url shop))
  = (Ok tt,
     mkState (at_url shop) false
             [Call (Fill (Locator "#name") (PStr "Ada") 5000)])
  /\ _perform_input input_payload (init (mkSim shop fill_rejected))
     = (Raise (PlaywrightError "Element is not an <input>"),
        mkState (mkSim shop fill_rejected) false
                [Call (Fill (Locator "#name") (PStr "Ada") 5000)]).
Proof.
  split.
  - pose proof (proj1 (input_selector_outcomes input_payload
                         (init (at_url shop))) "#name" 1) as Hok.
    specialize (Hok ltac:(discriminate) eq_refl eq_refl).
    rewrite Hok. reflexivity.
  - pose proof (proj1 (proj2 (input_selector_outcomes input_payload
                                (init (mkSim shop fill_rejected))))
                  "#name" (PlaywrightError "Element is not an <input>"))
      as Hbad.
    specialize (Hbad ltac:(discriminate) eq_refl eq_refl eq_refl).
    rewrite Hbad. reflexivity.
Defined.

Lemma state_steps_never_fatal_witness :
  exists s',
    _handle_state_step "browser" "navigated" (url_payload shop)
                       (init (mkSim "about:blank" all_fail))
    = (Ok tt, s').
Proof.
  apply state_steps_never_fatal. left. reflexivity.
Defined.

Lemma navigated_with_non_string_url_witness :
  _handle_state_step "browser" "navigated" numeric_url_payload
                     (mkState (at_url shop) true [])
  = (Raise AttributeError, mkState (at_url shop) true [])
  /\ _handle_state_step "browser" "navigated" numeric_url_payload
                        (init (at_url "about:blank"))
     = (Ok tt,
        mkState (at_url "about:blank") true
                [Call (Goto (PInt 5) "domcontentloaded")]).
Proof.
  split.
  - apply (proj1 (@navigated_with_non_string_url sim_lib sim sim_browser
                    numeric_url_payload (mkState (at_url shop) true [])
                    eq_refl eq_refl));
      [reflexivity | discriminate].
  - rewrite (proj2 (@navigated_with_non_string_url sim_lib sim sim_browser
                      numeric_url_payload (init (at_url "about:blank"))
                      eq_refl eq_refl)); [reflexivity|].
    left. reflexivity.
Defined.

Lemma load_wait_steps_witness :
  _handle_state_step "page" "load" (PDict []) (init (mkSim shop all_fail))
  = (Ok tt,
     mkState (mkSim shop all_fail) false [Call (WaitForLoadState "load" 15000)])
  /\ _handle_state_step "browser" "tab_opened" (url_payload shop)
                        (init (at_url "about:blank"))
     = (Ok tt, init (at_url "about:blank")).
Proof.
  split.
  - rewrite (proj1 (proj2 (load_wait_steps "load" (PDict [])
                             (init (mkSim shop all_fail)))));
      [reflexivity|].
    cbn. auto.
  - apply (proj2 (proj2 (proj2 (proj2
             (load_wait_steps "tab_opened" (url_payload shop)
                              (init (at_url "about:blank"))))))).
    discriminate.
Defined.

Lemma unrecognised_steps_are_skipped_witness :
  _run_step system_step (init (at_url shop)) = (Ok tt, init (at_url shop)).
Proof.
  apply (unrecognised_steps_are_skipped system_step (init (at_url shop))).
  - discriminate.
  - right. left. discriminate.
Defined.

Lemma unparsable_urls_are_real_navigations_witness :
  urlparse "http://[::1/" = Raise ValueError
  /\ _is_spa_route_change (PStr "http://[::1/x") (init (at_url "http://[::1/"))
     = (Ok false, init (at_url "http://[::1/")).
Proof.
  split; [reflexivity|].
  apply (@unparsable_urls_are_real_navigations sim_lib sim sim_browser
           (PStr "http://[::1/x") (init (at_url "http://[::1/")) ValueError).
  left. reflexivity.
Defined.

Lemma first_navigation_is_real_witness :
  _handle_state_step "browser" "navigated" (url_payload shop)
                     (init (at_url "about:blank"))
  = (Ok tt,
     mkState (at_url shop) true [Call (Goto (PStr shop) "domcontentloaded")]).
Proof.
  rewrite (@first_navigation_is_real sim_lib sim sim_browser
             (url_payload shop) shop (init (at_url "about:blank")));
    try reflexivity; try discriminate.
  right. reflexivity.
Defined.

End MoreRuns.

Section RecorderRuns.
Import Sim SimHost MoreExamples Launch.

Lemma setup_dom_listeners_idempotent_witness :
  setup_dom_listeners (fresh obliging)
  = (Ok tt,
     mkStealth obliging true true
               [Printed SettingUpListeners;
                Did (ContextExposeBinding "onPageEvent");
                Did (ContextAddInitScript PAGE_EVENT_LISTENER_SCRIPT);
                Printed ListenersSetupComplete])
  /\ setup_dom_listeners
       (mkStealth obliging true true
                  [Printed SettingUpListeners;
                   Did (ContextExposeBinding "onPageEvent");
                   Did (ContextAddInitScript PAGE_EVENT_LISTENER_SCRIPT);
                   Printed ListenersSetupComplete])
     = (Ok tt,
        mkStealth obliging true true
                  [Printed SettingUpListeners;
                   Did (ContextExposeBinding "onPageEvent");
                   Did (ContextAddInitScript PAGE_EVENT_LISTENER_SCRIPT);
                   Printed ListenersSetupComplete;
                   Printed SettingUpListeners;
                   Printed ListenersSetupComplete]).
Proof.
  split; [reflexivity|].
  apply (proj2 (proj2 (@setup_dom_listeners_idempotent sim_host sim_host_ops
                         (fresh obliging) _ eq_refl))).
Defined.

Lemma setup_failure_leaves_flag_unset_witness :
  setup_dom_listeners (fresh no_binding)
  = (Raise (PlaywrightError "refused"),
     mkStealth no_binding false false
               [Printed SettingUpListeners;
                Did (ContextExposeBinding "onPageEvent")]).
Proof.
  apply (proj1 (@setup_failure_leaves_flag_unset sim_host sim_host_ops
                  (fresh no_binding) (PlaywrightError "refused")));
    reflexivity.
Defined.

Lemma listener_script_reaches_every_frame_witness :
  exists h,
    _initialize_page_event_script (Some 7%nat) (fresh picky)
    = (Ok tt,
       mkStealth h false false
                 ([] ++ [Did (PageExposeBinding 7 "onPageEvent");
                         Did (PageEvaluate 7 PAGE_EVENT_LISTENER_SCRIPT)]
                  ++ frame_installs 7 [0%nat; 1%nat; 2%nat])).
Proof.
  apply (@listener_script_reaches_every_frame sim_host sim_host_ops
           7%nat [0%nat; 1%nat; 2%nat] (fresh picky));
    reflexivity.
Defined.

Lemma initialize_page_event_script_never_raises_witness :
  _initialize_page_event_script (Some 7%nat) (fresh deaf_page)
  = (Ok tt,
     mkStealth deaf_page false false
               [Did (PageExposeBinding 7 "onPageEvent");
                Did (PageEvaluate 7 PAGE_EVENT_LISTENER_SCRIPT)]).
Proof.
  pose proof (proj2 (proj2 (@initialize_page_event_script_never_raises
                              sim_host sim_host_ops))
                7%nat (fresh deaf_page) (PlaywrightError "refused")) as Hdeaf.
  specialize (Hdeaf ltac:(reflexivity)).
  rewrite Hdeaf. reflexivity.
Defined.

Lemma handle_page_event_never_raises_witness :
  handle_page_event click_event (Some 7%nat) (fresh obliging)
  = (Ok tt,
     mkStealth obliging false false
               [Did (RecordStep click_event "action:user" (Some 7%nat))])
  /\ handle_page_event PNone None (fresh obliging) = (Ok tt, fresh obliging).
Proof.
  split.
  - rewrite (proj1 (@handle_page_event_never_raises sim_lib sim_host
                      sim_host_ops click_event (Some 7%nat) (fresh obliging))
               _ eq_refl).
    reflexivity.
  - apply (proj2 (@handle_page_event_never_raises sim_lib sim_host
                    sim_host_ops PNone None (fresh obliging))).
    reflexivity.
Defined.


Lemma preferred_channel_is_stripped_witness :
  preferred_channel (Some "  msedge ") = Some "msedge"
  /\ "msedge" <> ""
  /\ starts_with_space "msedge" = false
  /\ ends_with_space "msedge" = false
  /\ preferred_channel (Some "msedge") = Some "msedge".
Proof.
  split; [reflexivity|].
  apply (proj1 (proj2 preferred_channel_is_stripped) (Some "  msedge ")).
  reflexivity.
Defined.

End RecorderRuns.

(* ================================================================== *)
(** * Further properties: whole replays and the exhausted submit *)
(* ================================================================== *)

Section WholeReplays.
Context {lib : PyLib} {B : Type} {br : Browser B}.

Lemma same_url_is_skipped (payload : value) (t : string) (s : state B) :
  get_if_dict payload "url" = PStr t ->
  _initial_navigation_done s = true ->
  page_url (page s) <> "" ->
  PyStr.rstrip "/" (page_url (page s)) = PyStr.rstrip "/" t ->
  _handle_state_step "browser" "navigated" payload s = (Ok tt, s).
Proof.
  intros Hurl Hdone Hne Hsame.
  unfold _handle_state_step. cbn [String.eqb Ascii.eqb Bool.eqb andb].
  rewrite Hurl.
  destruct (negb (truthy (PStr t)) || eq_str (PStr t) about_blank);
    [reflexivity|].
  unfold_monad. rewrite Hdone. cbn [negb].
  unfold _urls_differ. rewrite (is_empty_false Hne), Hsame.
  rewrite String.eqb_refl. reflexivity.
Qed.

(** X28 -- A replay started on the page it begins with does not
    reload it.  When the page already shows a URL (not the blank
    sentinel) and the trajectory is a single navigated step to that
    URL, give or take trailing slashes, [run] presets the flag, issues
    no browser call at all, sleeps its pacing delay once and ends
    [Completed]. *)
Theorem replay_on_shown_page_does_not_reload
    (human : bool) (step_id : Z) (payload : value) (t : string)
    (s : state B) :
  get_if_dict payload "url" = PStr t ->
  page_url (page s) <> "" ->
  page_url (page s) <> about_blank ->
  PyStr.rstrip "/" (page_url (page s)) = PyStr.rstrip "/" t ->
  run human [mkStep step_id (Some "state:browser:navigated") payload] s
  = (Ok Completed, rested (base_delay human) (marked s)).
Proof.
  intros Hurl Hne Hnb Hsame.
  rewrite run_enters_loop.
  assert (Hentry : entry_state s = marked s).
  { unfold entry_state, marked. rewrite (is_empty_false Hne).
    apply String.eqb_neq in Hnb. rewrite Hnb. reflexivity. }
  rewrite Hentry.
  assert (Hstep : _run_step (mkStep step_id (Some "state:browser:navigated")
                                    payload) (marked s)
                  = (Ok tt, marked s)).
  { unfold _run_step. cbn [event_type event_data_json].
    change (_split_event_type (Some "state:browser:navigated"))
      with ("state", "browser", "navigated").
    cbn [String.eqb Ascii.eqb Bool.eqb].
    apply (@same_url_is_skipped payload t (marked s) Hurl);
      [reflexivity | exact Hne | exact Hsame]. }
  rewrite (@run_loop_step_ok lib B br human _ [] (marked s) (marked s) Hstep).
  reflexivity.
Qed.

(** X12 -- The exhausted submit.  Without a selector and with no
    submit button, no focused element and no form on the page, the
    submit handler makes exactly its three presence checks, performs
    no action and raises "Submit operation failed". *)
Theorem submit_with_nothing_to_submit
    (payload : value) (s : state B) (n1 n2 n3 : Z) :
  _build_selector payload = Ok None ->
  fst (await (Count submit_buttons) s) = Ok n1 -> n1 <= 0 ->
  fst (await (Count focus) (after (Count submit_buttons) s)) = Ok n2 ->
  n2 <= 0 ->
  fst (await (Count first_form)
             (after (Count focus) (after (Count submit_buttons) s))) = Ok n3 ->
  n3 <= 0 ->
  _perform_submit payload s
  = (Raise (Exception "Submit operation failed"),
     after (Count first_form)
           (after (Count focus) (after (Count submit_buttons) s))).
Proof.
  intros Hsel H1 L1 H2 L2 H3 L3.
  rewrite submit_is_first_present. unfold_monad. rewrite Hsel.
  cbn [usable submit_strategies app].
  rewrite (@first_present_absent B br _ _ _ s n1 H1 L1).
  rewrite (@first_present_absent B br _ _ _ _ n2 H2 L2).
  rewrite (@first_present_absent B br _ _ _ _ n3 H3 L3).
  reflexivity.
Qed.

End WholeReplays.

Section WholeRuns.
Import Sim Examples MoreExamples.

Lemma replay_on_shown_page_does_not_reload_witness :
  run false [mkStep 1 (Some "state:browser:navigated") (url_payload shop)]
      (init (at_url "https://shop.example/cart/"))
  = (Ok Completed,
     mkState (at_url "https://shop.example/cart/") true [Sleep 100]).
Proof.
  rewrite (@replay_on_shown_page_does_not_reload sim_lib sim sim_browser
             false 1 (url_payload shop) shop
             (init (at_url "https://shop.example/cart/")));
    try reflexivity; discriminate.
Defined.

Lemma submit_with_nothing_to_submit_witness :
  _perform_submit (PDict []) (init (mkSim shop (fun _ => Ok 0)))
  = (Raise (Exception "Submit operation failed"),
     mkState (mkSim shop (fun _ => Ok 0)) false
             [Call (Count submit_buttons); Call (Count focus);
              Call (Count first_form)]).
Proof.
  pose proof (@submit_with_nothing_to_submit sim_lib sim sim_browser
                (PDict []) (init (mkSim shop (fun _ => Ok 0))) 0 0 0) as Hnone.
  specialize (Hnone eq_refl eq_refl ltac:(lia) eq_refl ltac:(lia)
                    eq_refl ltac:(lia)).
  rewrite Hnone. reflexivity.
Defined.

End WholeRuns.

Section PayloadShape.
Context {lib : PyLib} {B : Type} {br : Browser B}.

(** X5 -- A step whose payload is not a dict ([null], a list, a
    number, a string).  Hover, input, key press and navigation take it
    as a payload without fields and return without any browser call;
    click finds neither coordinates nor selector and raises before any
    call; scroll, the one handler that reads the payload without
    checking its type, raises [AttributeError]. *)
Theorem non_dict_payload_handling (payload : value) (s : state B) :
  is_dict payload = false ->
  _perform_pointer_move payload s = (Ok tt, s)
  /\ _perform_input payload s = (Ok tt, s)
  /\ _perform_keydown payload s = (Ok tt, s)
  /\ _handle_state_step "browser" "navigated" payload s = (Ok tt, s)
  /\ _perform_pointer_click payload s
     = (Raise (Exception "No coordinates or selector available for click"), s)
  /\ _perform_scroll payload s = (Raise AttributeError, s).
Proof.
  intros Hnd.
  destruct payload; try discriminate Hnd; repeat split; reflexivity.
Qed.

End PayloadShape.

Section PayloadShapeRuns.
Import Sim Examples.

Lemma non_dict_payload_handling_witness :
  _perform_pointer_move PNone (init (at_url shop)) = (Ok tt, init (at_url shop))
  /\ _perform_scroll PNone (init (at_url shop))
     = (Raise AttributeError, init (at_url shop)).
Proof.
  pose proof (@non_dict_payload_handling sim_lib sim sim_browser PNone
                (init (at_url shop)) eq_refl)
    as (Hmove & _ & _ & _ & _ & Hscroll).
  split; assumption.
Defined.

End PayloadShapeRuns.

(* ================================================================== *)
(** * The input handler, every path *)
(* ================================================================== *)

Section InputHandler.
Context {lib : PyLib} {B : Type} {br : Browser B}.

Lemma focused_fill_cases (v : value) (s : state B) :
  (forall e : exn,
      fst (await (Count focus) s) = Raise e ->
      focused_fill v s
      = (Raise (Exception "Input operation failed"), after (Count focus) s))
  /\ (forall n : Z,
         fst (await (Count focus) s) = Ok n -> n <= 0 ->
         focused_fill v s
         = (Raise (Exception "Input operation failed"),
            after (Count focus) s))
  /\ (forall n k : Z,
         fst (await (Count focus) s) = Ok n -> 0 < n ->
         fst (await (Fill focus v 2000) (after (Count focus) s)) = Ok k ->
         focused_fill v s
         = (Ok tt, after (Fill focus v 2000) (after (Count focus) s)))
  /\ (forall (n : Z) (e : exn),
         fst (await (Count focus) s) = Ok n -> 0 < n ->
         fst (await (Fill focus v 2000) (after (Count focus) s)) = Raise e ->
         focused_fill v s
         = (Raise (Exception "Input operation failed"),
            after (Fill focus v 2000) (after (Count focus) s))).
Proof.
  unfold focused_fill, after.
  destruct (await (Count focus) s) as [r s1]. cbn [fst snd].
  repeat split.
  - intros e ->. reflexivity.
  - intros n -> Hle. destruct (Z.ltb_spec 0 n); [lia | reflexivity].
  - intros n k -> Hlt. destruct (Z.ltb_spec 0 n); [|lia].
    destruct (await (Fill focus v 2000) s1) as [r2 s2]. cbn [fst snd].
    intros ->. reflexivity.
  - intros n e -> Hlt. destruct (Z.ltb_spec 0 n); [|lia].
    destruct (await (Fill focus v 2000) s1) as [r2 s2]. cbn [fst snd].
    intros ->. reflexivity.
Qed.

Lemma input_after_timeout_is_focused_fill
    (payload : value) (sel : string) (e : exn) (s : state B) :
  get_if_dict payload "value" <> PNone ->
  _build_selector payload = Ok (Some sel) ->
  fst (await (Fill (Locator sel) (get_if_dict payload "value") 5000) s)
  = Raise e ->
  is_timeout e = true ->
  _perform_input payload s
  = focused_fill (get_if_dict payload "value")
                 (after (Fill (Locator sel) (get_if_dict payload "value") 5000)
                        s).
Proof.
  intros Hv Hsel Hfill Ht. rewrite (@input_with_value lib B br payload s Hv).
  unfold after. unfold_monad.
  rewrite Hsel, (built_selector_is_usable _ Hsel).
  destruct (await (Fill (Locator sel) (get_if_dict payload "value") 5000) s)
    as [r s1]. cbn in Hfill |- *. subst r. rewrite Ht. reflexivity.
Qed.

Lemma input_selector_build_fails (payload : value) (e : exn) (s : state B) :
  get_if_dict payload "value" <> PNone ->
  _build_selector payload = Raise e ->
  _perform_input payload s = (Raise e, s).
Proof.
  intros Hv Hsel. rewrite (@input_with_value lib B br payload s Hv).
  unfold_monad. rewrite Hsel. reflexivity.
Qed.

(** C7 (amended) -- Input handler.  Without a [value] the handler is a
    silent no-op.  With a value, once the selector is built:
    a selector fill (5 s) that returns ends the step; a selector fill
    that times out is followed by the focused-element strategy; a
    selector fill that raises anything but a timeout ends the step
    with that exception at once, the focused element untried; without
    a selector the focused-element strategy alone decides.  The
    focused-element strategy looks for the focused element and fills
    it (2 s) when it is there; the step returns when that fill returns
    and raises "Input operation failed" when the lookup raises, when
    no element has the focus (no fill is then issued), or when the
    fill raises.  When the selector cannot be built (the
    [AttributeError] of a [tag] that is not a string) the step raises
    that exception before any browser call. *)
Theorem input_handler_outcomes (payload : value) (s : state B) :
  (get_if_dict payload "value" = PNone ->
   _perform_input payload s = (Ok tt, s))
  /\ (forall (sel : string) (n : Z),
         get_if_dict payload "value" <> PNone ->
         _build_selector payload = Ok (Some sel) ->
         fst (await (Fill (Locator sel) (get_if_dict payload "value") 5000) s)
         = Ok n ->
         _perform_input payload s
         = (Ok tt,
            after (Fill (Locator sel) (get_if_dict payload "value") 5000) s))
  /\ (forall (sel : string) (e : exn),
         get_if_dict payload "value" <> PNone ->
         _build_selector payload = Ok (Some sel) ->
         fst (await (Fill (Locator sel) (get_if_dict payload "value") 5000) s)
         = Raise e ->
         is_timeout e = true ->
         _perform_input payload s
         = focused_fill (get_if_dict payload "value")
             (after (Fill (Locator sel) (get_if_dict payload "value") 5000) s))
  /\ (forall (sel : string) (e : exn),
         get_if_dict payload "value" <> PNone ->
         _build_selector payload = Ok (Some sel) ->
         fst (await (Fill (Locator sel) (get_if_dict payload "value") 5000) s)
         = Raise e ->
         is_timeout e = false ->
         _perform_input payload s
         = (Raise e,
            after (Fill (Locator sel) (get_if_dict payload "value") 5000) s))
  /\ (get_if_dict payload "value" <> PNone ->
      _build_selector payload = Ok None ->
      _perform_input payload s
      = focused_fill (get_if_dict payload "value") s)
  /\ (forall (v : value) (s0 : state B),
         (forall e : exn,
             fst (await (Count focus) s0) = Raise e ->
             focused_fill v s0
             = (Raise (Exception "Input operation failed"),
                after (Count focus) s0))
         /\ (forall n : Z,
                fst (await (Count focus) s0) = Ok n -> n <= 0 ->
                focused_fill v s0
                = (Raise (Exception "Input operation failed"),
                   after (Count focus) s0))
         /\ (forall n k : Z,
                fst (await (Count focus) s0) = Ok n -> 0 < n ->
                fst (await (Fill focus v 2000) (after (Count focus) s0))
                = Ok k ->
                focused_fill v s0
                = (Ok tt, after (Fill focus v 2000) (after (Count focus) s0)))
         /\ (forall (n : Z) (e : exn),
                fst (await (Count focus) s0) = Ok n -> 0 < n ->
                fst (await (Fill focus v 2000) (after (Count focus) s0))
                = Raise e ->
                focused_fill v s0
                = (Raise (Exception "Input operation failed"),
                   after (Fill focus v 2000) (after (Count focus) s0))))
  /\ (forall e : exn,
         get_if_dict payload "value" <> PNone ->
         _build_selector payload = Raise e ->
         _perform_input payload s = (Raise e, s)).
Proof.
  split; [exact (proj1 (input_after_selector_timeout payload s))|].
  split; [exact (proj1 (input_selector_outcomes payload s))|].
  split; [intros sel e Hv Hsel Hfill Ht;
          exact (@input_after_timeout_is_focused_fill payload sel e s Hv Hsel Hfill Ht)|].
  split; [exact (proj1 (proj2 (input_selector_outcomes payload s)))|].
  split; [exact (proj2 (proj2 (input_selector_outcomes payload s)))|].
  split; [intros v s0; apply focused_fill_cases|].
  intros e Hv Hsel. exact (@input_selector_build_fails payload e s Hv Hsel).
Qed.

End InputHandler.

Section InputRuns.
Import Sim Examples MoreExamples.

Lemma input_handler_outcomes_witness :
  _perform_input input_payload (init (mkSim shop fill_times_out))
  = (Ok tt,
     mkState (mkSim shop fill_times_out) false
             [Call (Fill (Locator "#name") (PStr "Ada") 5000);
              Call (Count focus);
              Call (Fill focus (PStr "Ada") 2000)])
  /\ _perform_input input_payload (init (mkSim shop fill_times_out_unfocused))
     = (Raise (Exception "Input operation failed"),
        mkState (mkSim shop fill_times_out_unfocused) false
                [Call (Fill (Locator "#name") (PStr "Ada") 5000);
                 Call (Count focus)])
  /\ _perform_input (PDict []) (init (at_url shop)) = (Ok tt, init (at_url shop)).
Proof.
  split; [|split].
  - pose proof (input_handler_outcomes input_payload
                  (init (mkSim shop fill_times_out)))
      as (_ & _ & Htimeout & _ & _ & Hfocus & _).
    specialize (Htimeout "#name" (TimeoutError "Timeout 5000ms exceeded")
                         ltac:(discriminate) eq_refl eq_refl eq_refl).
    rewrite Htimeout.
    destruct (Hfocus (PStr "Ada")
                (after (Fill (Locator "#name") (PStr "Ada") 5000)
                       (init (mkSim shop fill_times_out))))
      as (_ & _ & Hhit & _).
    specialize (Hhit 1 1 eq_refl ltac:(lia) eq_refl).
    exact Hhit.
  - pose proof (input_handler_outcomes input_payload
                  (init (mkSim shop fill_times_out_unfocused)))
      as (_ & _ & Htimeout & _ & _ & Hfocus & _).
    specialize (Htimeout "#name" (TimeoutError "Timeout 5000ms exceeded")
                         ltac:(discriminate) eq_refl eq_refl eq_refl).
    rewrite Htimeout.
    destruct (Hfocus (PStr "Ada")
                (after (Fill (Locator "#name") (PStr "Ada") 5000)
                       (init (mkSim shop fill_times_out_unfocused))))
      as (_ & Hnone & _ & _).
    specialize (Hnone 0 eq_refl ltac:(lia)).
    exact Hnone.
  - apply (proj1 (input_handler_outcomes (PDict []) (init (at_url shop)))).
    reflexivity.
Defined.

(** C7, as stated, fails when the selector fill fails otherwise than
    by a timeout: the step raises that error after the one call,
    although an element has the focus and filling it would have
    succeeded -- the focused-element fill is never attempted, so the
    fatal error is raised without both strategies having failed. *)
Lemma input_contract_counterexample :
  get_if_dict input_payload "value" = PStr "Ada"
  /\ _build_selector input_payload = Ok (Some "#name")
  /\ _perform_input input_payload (init (mkSim shop fill_rejected))
     = (Raise (PlaywrightError "Element is not an <input>"),
        mkState (mkSim shop fill_rejected) false
                [Call (Fill (Locator "#name") (PStr "Ada") 5000)])
  /\ fill_rejected (Count focus) = Ok 1
  /\ fill_rejected (Fill focus (PStr "Ada") 2000) = Ok 1.
Proof. repeat split; reflexivity. Qed.

End InputRuns.
